(** * The paginated crawl engine of [web_scraper.py]

    A shallow embedding of the class [WebScraper]: the page loop of
    [scrape_books], the per-item extractor [_extract_book_details] and the
    persistence routine [save_to_csv], followed by the properties the
    specification states about them.

    Python values are modelled as follows.
    - [str] is [string]; one [ascii] stands for one character of the Python
      string (the pound sign is the single character 163).
    - [int] is [Z] (Python integers do not wrap).
    - a [dict] with string keys and values is an association list in
      insertion order, as [csv.DictWriter] reads the key order of the first
      record.
    - exceptions are values of [Exn]; a computation that can raise returns an
      [Outcome].
    - the network, the HTML parser and the file system are not part of the
      program: they are the record [Env] the program runs against, and every
      call the program makes on them is recorded in the trace of [Event]s. *)

From stdpp Require Import gmap strings list pretty sorting.

Open Scope Z_scope.

(** ** Exceptions and outcomes *)

(** The subclasses of [requests.RequestException] a fetch can raise. *)
Inductive RequestException : Type :=
  | Timeout
  | ConnectionError
  | HTTPError (status_code : Z).

(** The exceptions the program can meet. *)
Inductive Exn : Type :=
  | RequestExn (e : RequestException)
  | AttributeError
  | KeyError
  | TypeError
  | IndexError
  | ValueError
  | OSError.

(** [except requests.RequestException] *)
Definition isinstance_RequestException (e : Exn) : bool :=
  match e with RequestExn _ => true | _ => false end.

(** [except Exception] *)
Definition isinstance_Exception (e : Exn) : bool := true.

(** [except IOError] ([IOError] is [OSError] in Python 3) *)
Definition isinstance_IOError (e : Exn) : bool :=
  match e with OSError => true | _ => false end.

Inductive Outcome (A : Type) : Type :=
  | Returns (a : A)
  | Raises (e : Exn).
Arguments Returns {A} a.
Arguments Raises {A} e.

#[global] Instance Outcome_ret : MRet Outcome := fun A a => Returns a.
#[global] Instance Outcome_bind : MBind Outcome := fun A B f o =>
  match o with
  | Returns a => f a
  | Raises e => Raises e
  end.

(** ** Python strings *)

(** [s[1:]] *)
Definition slice_from_1 (s : string) : string :=
  match s with
  | EmptyString => EmptyString
  | String _ rest => rest
  end.

(** [str.isspace] on one character (code points below 256). *)
Definition py_isspace (c : Ascii.ascii) : bool :=
  let n := Z.of_N (Ascii.N_of_ascii c) in
  ((9 <=? n) && (n <=? 13)) || ((28 <=? n) && (n <=? 32))
  || (n =? 133) || (n =? 160).

Fixpoint lstrip (s : string) : string :=
  match s with
  | EmptyString => EmptyString
  | String c rest => if py_isspace c then lstrip rest else s
  end.

(** [s.strip()] *)
Definition strip (s : string) : string :=
  String.rev (lstrip (String.rev (lstrip s))).

(** [str(n)] for an [int] *)
Definition str_of_int (n : Z) : string := pretty n.

(** ** Dictionaries *)

Definition Dict : Type := list (string * string).

(** [d.keys()] *)
Definition keys (d : Dict) : list string := d.*1.

(** [d.get(k)] *)
Fixpoint dict_get (d : Dict) (k : string) : option string :=
  match d with
  | [] => None
  | (k', v) :: rest => if String.eqb k' k then Some v else dict_get rest k
  end.

(** Truth value of a dictionary: [if d:] *)
Definition dict_truthy (d : Dict) : bool :=
  match d with [] => false | _ => true end.

(** ** Parsed markup

    A [bs4] tag, as far as the extractor observes it: its single-valued
    attributes, its [class] attribute, its text, the first descendant with a
    given name ([tag.h3], [tag.a]) and the first descendant with a given
    name and class ([tag.find(name, class_=c)]). *)
#[warnings="-register-all"]
Inductive Tag : Type :=
  MkTag (attrs : list (string * string))
        (class_attr : option (list string))
        (text : string)
        (child : string -> option Tag)
        (find : string -> string -> option Tag).

Definition attrs (t : Tag) : list (string * string) :=
  match t with MkTag a _ _ _ _ => a end.
Definition class_attr (t : Tag) : option (list string) :=
  match t with MkTag _ c _ _ _ => c end.
Definition text (t : Tag) : string :=
  match t with MkTag _ _ x _ _ => x end.
Definition child (t : Tag) : string -> option Tag :=
  match t with MkTag _ _ _ c _ => c end.
Definition find (t : Tag) : string -> string -> option Tag :=
  match t with MkTag _ _ _ _ f => f end.

(** [x.name] where [x] is a tag or [None] *)
Definition getattr_child (x : option Tag) (name : string) : Outcome (option Tag) :=
  match x with
  | None => Raises AttributeError
  | Some t => Returns (child t name)
  end.

(** [x.text] where [x] is a tag or [None] *)
Definition getattr_text (x : option Tag) : Outcome string :=
  match x with
  | None => Raises AttributeError
  | Some t => Returns (text t)
  end.

(** [x[key]] for a single-valued attribute *)
Definition getitem (x : option Tag) (key : string) : Outcome string :=
  match x with
  | None => Raises TypeError
  | Some t =>
      match dict_get (attrs t) key with
      | None => Raises KeyError
      | Some v => Returns v
      end
  end.

(** [x['class']] *)
Definition getitem_class (x : option Tag) : Outcome (list string) :=
  match x with
  | None => Raises TypeError
  | Some t =>
      match class_attr t with
      | None => Raises KeyError
      | Some l => Returns l
      end
  end.

(** [l[i]] for a list and [i >= 0] *)
Definition list_index (l : list string) (i : nat) : Outcome string :=
  match l !! i with
  | None => Raises IndexError
  | Some v => Returns v
  end.

(** ** The world the program runs against *)

(** A [requests.Response]: [ok] tells whether [raise_for_status] returns
    normally; which status codes count as errors is the library's business. *)
Record Response : Type := {
  status_code : Z;
  ok : bool;
  response_text : string
}.

Inductive Level : Type := INFO | WARNING | ERROR.

(** The messages the program logs, by format string. *)
Inductive LogMsg : Type :=
  | NoBooksFound (page : Z)
  | ErrorScrapingPage (page : Z) (e : Exn)
  | CouldNotExtract (e : Exn)
  | NoDataToSave
  | DataSavedTo (filename : string)
  | ErrorSavingCSV (e : Exn).

(** What the program does to the outside, in the order it does it. *)
Inductive Event : Type :=
  | EvGet (url : string) (headers : Dict) (timeout : Z)
  | EvSleep (secs : Z)
  | EvLog (lvl : Level) (msg : LogMsg).

(** The answers of the outside: [requests.get], the parse
    [BeautifulSoup(text, 'html.parser').find_all('article', class_='product_pod')]
    and whether [open(filename, 'w')] succeeds. This is the outside within
    the contracts of the libraries: a request that fails raises a
    [RequestException], the parse returns, an [open] that fails raises
    [OSError]. The module [Raw] below drops these assumptions. *)
Record Env : Type := {
  requests_get : string -> Dict -> Z -> RequestException + Response;
  find_all_product_pod : string -> list Tag;
  can_open : string -> bool
}.

(** A CSV file, as the rows handed to the writer. *)
Definition Rows : Type := list (list string).

(** The mutable store: the accumulator [all_books] of [scrape_books], the
    trace of effects and the files. *)
Record State : Type := {
  all_books : list Dict;
  trace : list Event;
  files : gmap string Rows
}.

Definition initial_state : State :=
  {| all_books := []; trace := []; files := ∅ |}.

(** ** The monad of statements: state and exceptions *)

Definition M (A : Type) : Type := State -> Outcome A * State.

#[global] Instance M_ret : MRet M := fun A a st => (Returns a, st).
#[global] Instance M_bind : MBind M := fun A B f m st =>
  match m st with
  | (Returns a, st') => f a st'
  | (Raises e, st') => (Raises e, st')
  end.

(** An expression without effects, evaluated inside a statement. *)
Definition lift {A : Type} (o : Outcome A) : M A := fun st => (o, st).

(** [try: body except C as e: handler e], where [catches] decides [isinstance(e, C)]. *)
Definition try_except {A : Type} (body : M A) (catches : Exn -> bool)
    (handler : Exn -> M A) : M A := fun st =>
  match body st with
  | (Returns a, st') => (Returns a, st')
  | (Raises e, st') => if catches e then handler e st' else (Raises e, st')
  end.

Definition emit (ev : Event) : M unit := fun st =>
  (Returns tt, {| all_books := all_books st; trace := trace st ++ [ev]; files := files st |}).

Definition logger_info (msg : LogMsg) : M unit := emit (EvLog INFO msg).
Definition logger_warning (msg : LogMsg) : M unit := emit (EvLog WARNING msg).
Definition logger_error (msg : LogMsg) : M unit := emit (EvLog ERROR msg).

(** [time.sleep(secs)] *)
Definition time_sleep (secs : Z) : M unit := emit (EvSleep secs).

(** [all_books = l] *)
Definition set_all_books (l : list Dict) : M unit := fun st =>
  (Returns tt, {| all_books := l; trace := trace st; files := files st |}).

(** [all_books.append(d)] *)
Definition all_books_append (d : Dict) : M unit := fun st =>
  (Returns tt, {| all_books := all_books st ++ [d]; trace := trace st; files := files st |}).

Definition get_all_books : M (list Dict) := fun st => (Returns (all_books st), st).

(** [requests.get(url, headers=headers, timeout=timeout)], raising within
    its contract; [Raw.get] is the call that may raise anything. *)
Definition get (env : Env) (url : string) (headers : Dict) (timeout : Z) : M Response :=
  emit (EvGet url headers timeout);;
  match requests_get env url headers timeout with
  | inl e => lift (Raises (RequestExn e))
  | inr response => mret response
  end.

(** [response.raise_for_status()] *)
Definition raise_for_status (response : Response) : M unit :=
  if ok response then mret tt
  else lift (Raises (RequestExn (HTTPError (status_code response)))).

(** ** The scraper *)

Record WebScraper : Type := {
  base_url : string;
  headers : Dict
}.

Definition user_agent : string :=
  "Mozilla/5.0 (Windows NT 10.0; Win64; x64) AppleWebKit/537.36 (KHTML, like Gecko) Chrome/91.0.4472.124 Safari/537.36".

(** [WebScraper(base_url)], lines 9-19 (the logging set-up has no effect on
    what follows) *)
Definition __init__ (base_url : string) : WebScraper :=
  {| base_url := base_url;
     headers := [("User-Agent", user_agent)] |}.

(** The right-hand sides of the five assignments of [_extract_book_details],
    lines 80-84. *)
Definition read_title (book_element : Tag) : Outcome string :=
  a ← getattr_child (child book_element "h3") "a";
  getitem a "title".

Definition read_price (book_element : Tag) : Outcome string :=
  t ← getattr_text (find book_element "p" "price_color");
  mret (slice_from_1 t).

Definition read_availability (book_element : Tag) : Outcome string :=
  t ← getattr_text (find book_element "p" "instock availability");
  mret (strip t).

Definition read_rating (book_element : Tag) : Outcome string :=
  classes ← getitem_class (find book_element "p" "star-rating");
  list_index classes 1.

Definition read_book_url (self : WebScraper) (book_element : Tag) : Outcome string :=
  a ← getattr_child (child book_element "h3") "a";
  href ← getitem a "href";
  mret (base_url self +:+ "/" +:+ href).

(** The body of the [try] of [_extract_book_details], lines 80-92. *)
Definition book_details (self : WebScraper) (book_element : Tag) : Outcome Dict :=
  title ← read_title book_element;
  price ← read_price book_element;
  availability ← read_availability book_element;
  rating ← read_rating book_element;
  book_url ← read_book_url self book_element;
  mret [("Title", title); ("Price", price); ("Availability", availability);
        ("Rating", rating); ("URL", book_url)].

(** Lines 69-96: the [try] and its [except Exception]. *)
Definition _extract_book_details (self : WebScraper) (book_element : Tag) : M Dict :=
  try_except
    (lift (book_details self book_element))
    isinstance_Exception
    (fun e => logger_warning (CouldNotExtract e);; mret []).

(** [for book in books: ...] of [scrape_books], lines 55-58 *)
Fixpoint for_book (self : WebScraper) (books : list Tag) : M unit :=
  match books with
  | [] => mret tt
  | book :: rest =>
      book_info ← _extract_book_details self book;
      (if dict_truthy book_info then all_books_append book_info else mret tt);;
      for_book self rest
  end.

(** How one pass through a loop body ends. *)
Inductive Flow : Type := Fallthrough | Continue | Break.

(** The address of a page: the first line of the [try] of [scrape_books],
    line 42. *)
Definition page_url (self : WebScraper) (page : Z) : string :=
  if 1 <? page
  then base_url self +:+ "/catalogue/page-" +:+ str_of_int page +:+ ".html"
  else base_url self.

(** The body of [for page in range(1, max_pages + 1)], lines 41-65. *)
Definition scrape_page (env : Env) (self : WebScraper) (page : Z) : M Flow :=
  try_except
    (let url := page_url self page in
     response ← get env url (headers self) 10;
     raise_for_status response;;
     let soup := response_text response in
     let books := find_all_product_pod env soup in
     match books with
     | [] =>
         logger_warning (NoBooksFound page);;
         mret Break
     | _ =>
         for_book self books;;
         time_sleep 1;;
         mret Fallthrough
     end)
    isinstance_RequestException
    (fun e => logger_error (ErrorScrapingPage page e);; mret Continue).

(** The loop of line 40: [break] ends it, [continue] and the end of the body
    go to the next page. *)
Fixpoint for_page (env : Env) (self : WebScraper) (pages : list Z) : M unit :=
  match pages with
  | [] => mret tt
  | page :: rest =>
      flow ← scrape_page env self page;
      match flow with
      | Break => mret tt
      | _ => for_page env self rest
      end
  end.

(** [range(a, b)] *)
Definition range (a b : Z) : list Z := seqZ a (b - a).

(** Lines 28-67. *)
Definition scrape_books (env : Env) (self : WebScraper) (max_pages : Z) : M (list Dict) :=
  set_all_books [];;
  for_page env self (range 1 (max_pages + 1));;
  get_all_books.

(** ** Persistence *)

(** [open(filename, 'w', ...)]: creates or truncates the file, or fails with
    [OSError]; [Raw.open_w] is the call that may raise anything. *)
Definition open_w (env : Env) (filename : string) : M unit := fun st =>
  if can_open env filename
  then (Returns tt, {| all_books := all_books st; trace := trace st;
                       files := <[filename := []]> (files st) |})
  else (Raises OSError, st).

(** The row [csv.DictWriter] makes of a dictionary: [ValueError] on a key
    that is no field name, the empty string for a missing field. *)
Definition dict_to_list (fieldnames : list string) (rowdict : Dict) : Outcome (list string) :=
  if forallb (fun k => bool_decide (k ∈ fieldnames)) (keys rowdict)
  then Returns ((fun k => default "" (dict_get rowdict k)) <$> fieldnames)
  else Raises ValueError.

Definition append_row (filename : string) (row : list string) : M unit := fun st =>
  (Returns tt, {| all_books := all_books st; trace := trace st;
                  files := alter (fun rows => rows ++ [row]) filename (files st) |}).

(** [writer.writeheader()] *)
Definition writeheader (filename : string) (fieldnames : list string) : M unit :=
  append_row filename fieldnames.

(** [writer.writerow(book)] *)
Definition writerow (filename : string) (fieldnames : list string) (book : Dict) : M unit :=
  row ← lift (dict_to_list fieldnames book);
  append_row filename row.

(** [for book in books: writer.writerow(book)] *)
Fixpoint for_row (filename : string) (fieldnames : list string) (books : list Dict) : M unit :=
  match books with
  | [] => mret tt
  | book :: rest =>
      writerow filename fieldnames book;;
      for_row filename fieldnames rest
  end.

(** Lines 98-122. *)
Definition save_to_csv (env : Env) (self : WebScraper) (books : list Dict)
    (filename : string) : M unit :=
  match books with
  | [] =>
      logger_warning NoDataToSave;;
      mret tt
  | first :: _ =>
      try_except
        (open_w env filename;;
         let fieldnames := keys first in
         writeheader filename fieldnames;;
         for_row filename fieldnames books;;
         logger_info (DataSavedTo filename))
        isinstance_IOError
        (fun e => logger_error (ErrorSavingCSV e))
  end.

(** Lines 124-129. *)
Definition main (env : Env) : M unit :=
  let base_url := "http://books.toscrape.com" in
  let scraper := __init__ base_url in
  books ← scrape_books env scraper 3;
  save_to_csv env scraper books "scraped_books.csv".

(** ** Vocabulary of the specification, read off the environment *)

(** The state [st] after more records and more events. *)
Definition extend (st : State) (books : list Dict) (evs : list Event) : State :=
  {| all_books := all_books st ++ books;
     trace := trace st ++ evs;
     files := files st |}.

(** The requests in a trace: URL, headers and timeout of every [requests.get]. *)
Definition requests_made (evs : list Event) : list (string * Dict * Z) :=
  omap (fun ev => match ev with
                  | EvGet url hdrs timeout => Some (url, hdrs, timeout)
                  | _ => None
                  end) evs.

(** The rate-limit waits in a trace, with their delays. *)
Definition waits (evs : list Event) : list Z :=
  omap (fun ev => match ev with EvSleep secs => Some secs | _ => None end) evs.

(** The fetch of a page: the request and the status check together. *)
Definition fetch (env : Env) (self : WebScraper) (page : Z) : RequestException + Response :=
  match requests_get env (page_url self page) (headers self) 10 with
  | inl e => inl e
  | inr response =>
      if ok response then inr response
      else inl (HTTPError (status_code response))
  end.

(** The three outcomes of a page the controller distinguishes. *)
Inductive PageOutcome : Type :=
  | FetchFailed (e : RequestException)
  | ParsedEmpty
  | ParsedNonEmpty (books : list Tag).

Definition page_outcome (env : Env) (self : WebScraper) (page : Z) : PageOutcome :=
  match fetch env self page with
  | inl e => FetchFailed e
  | inr response =>
      match find_all_product_pod env (response_text response) with
      | [] => ParsedEmpty
      | books => ParsedNonEmpty books
      end
  end.

(** The item elements of a page, in document order; none when the fetch failed. *)
Definition page_items (env : Env) (self : WebScraper) (page : Z) : list Tag :=
  match page_outcome env self page with
  | ParsedNonEmpty books => books
  | _ => []
  end.

(** A successful fetch that parsed into no item element. *)
Definition is_empty_page (env : Env) (self : WebScraper) (page : Z) : bool :=
  match page_outcome env self page with
  | ParsedEmpty => true
  | _ => false
  end.

(** The record of an item element, when all its five fields can be read. *)
Definition record_of (self : WebScraper) (book_element : Tag) : option Dict :=
  match book_details self book_element with
  | Returns d => Some d
  | Raises _ => None
  end.

(** The records of a sequence of item elements, in their order. *)
Definition records_of (self : WebScraper) (books : list Tag) : list Dict :=
  omap (record_of self) books.

(** What extraction logs for an item element. *)
Definition extract_events (self : WebScraper) (book_element : Tag) : list Event :=
  match book_details self book_element with
  | Returns _ => []
  | Raises e => [EvLog WARNING (CouldNotExtract e)]
  end.

(** The records a page contributes. *)
Definition page_books (env : Env) (self : WebScraper) (page : Z) : list Dict :=
  records_of self (page_items env self page).

(** The effects of the iteration for a page. *)
Definition page_events (env : Env) (self : WebScraper) (page : Z) : list Event :=
  EvGet (page_url self page) (headers self) 10 ::
  match page_outcome env self page with
  | FetchFailed e => [EvLog ERROR (ErrorScrapingPage page (RequestExn e))]
  | ParsedEmpty => [EvLog WARNING (NoBooksFound page)]
  | ParsedNonEmpty books => flat_map (extract_events self) books ++ [EvSleep 1]
  end.

(** The pages of a sequence that the loop reaches: all up to and including
    the first empty page. *)
Fixpoint visited (env : Env) (self : WebScraper) (pages : list Z) : list Z :=
  match pages with
  | [] => []
  | page :: rest =>
      if is_empty_page env self page then [page]
      else page :: visited env self rest
  end.

(** The pages a crawl with [max_pages] reaches. *)
Definition pages_visited (env : Env) (self : WebScraper) (max_pages : Z) : list Z :=
  visited env self (range 1 (max_pages + 1)).

(** The addresses fetched in a trace, in order. *)
Definition fetched_urls (evs : list Event) : list string :=
  (requests_made evs).*1.*1.

(** ** The two statements of the specification that the program does not meet *)


(** "Between any two consecutive page fetches a politeness delay occurs":
    [pending] tells whether a request was made since the last wait. *)
Fixpoint delay_between_fetches (pending : bool) (evs : list Event) : bool :=
  match evs with
  | [] => true
  | EvGet _ _ _ :: rest => negb pending && delay_between_fetches true rest
  | EvSleep _ :: rest => delay_between_fetches false rest
  | EvLog _ _ :: rest => delay_between_fetches pending rest
  end.

(** "If maxPages = 0, or if the base URL is unreachable on page 1, the
    result is empty." *)
Definition empty_when_first_page_unreachable (env : Env) (self : WebScraper)
    (max_pages : Z) : Prop :=
  (max_pages = 0 \/ exists e, page_outcome env self 1 = FetchFailed e) ->
  (scrape_books env self max_pages initial_state).1 = Returns [].

(** ** Example sites *)

Definition leaf (attrs : list (string * string)) (class_attr : option (list string))
    (text : string) : Tag :=
  MkTag attrs class_attr text (fun _ => None) (fun _ _ => None).

(** The pound sign, one character. *)
Definition pound : string := String (Ascii.ascii_of_N 163) "".

(** A catalogue entry as the site marks it up; [price = None] leaves the
    price element out. *)
Definition catalogue_entry (title href rating : string) (price : option string) : Tag :=
  MkTag [] (Some ["product_pod"]) title
    (fun name =>
       if String.eqb name "h3"
       then Some (MkTag [] None title
                    (fun name' =>
                       if String.eqb name' "a"
                       then Some (leaf [("href", href); ("title", title)] None title)
                       else None)
                    (fun _ _ => None))
       else None)
    (fun name class_ =>
       if String.eqb name "p" then
         if String.eqb class_ "price_color"
         then (fun p => leaf [] (Some ["price_color"]) p) <$> price
         else if String.eqb class_ "instock availability"
         then Some (leaf [] (Some ["instock"; "availability"]) "  In stock  ")
         else if String.eqb class_ "star-rating"
         then Some (leaf [] (Some ["star-rating"; rating]) "")
         else None
       else None).

Definition book_a : Tag :=
  catalogue_entry "A Light in the Attic" "catalogue/a-light-in-the-attic_1000/index.html"
    "Three" (Some (pound +:+ "51.77")).
Definition book_b : Tag :=
  catalogue_entry "Tipping the Velvet" "catalogue/tipping-the-velvet_999/index.html"
    "One" (Some (pound +:+ "53.74")).
Definition book_without_price : Tag :=
  catalogue_entry "Soumission" "catalogue/soumission_998/index.html" "One" None.

Definition response_200 (body : string) : Response :=
  {| status_code := 200; ok := true; response_text := body |}.
Definition response_404 : Response :=
  {| status_code := 404; ok := false; response_text := "" |}.

Definition example_base : string := "http://books.toscrape.com".
Definition example_scraper : WebScraper := __init__ example_base.

(** A site of six pages: page 2 times out, page 3 has a single entry that
    cannot be extracted, page 4 repeats an entry of page 1, page 5 is empty;
    the page bodies are named, and the parser maps a name to its entries. *)
Definition example_env : Env :=
  {| requests_get := fun url _ _ =>
       if String.eqb url "http://books.toscrape.com" then inr (response_200 "page 1")
       else if String.eqb url "http://books.toscrape.com/catalogue/page-2.html" then inl Timeout
       else if String.eqb url "http://books.toscrape.com/catalogue/page-3.html" then inr (response_200 "page 3")
       else if String.eqb url "http://books.toscrape.com/catalogue/page-4.html" then inr (response_200 "page 4")
       else if String.eqb url "http://books.toscrape.com/catalogue/page-5.html" then inr (response_200 "page 5")
       else if String.eqb url "http://books.toscrape.com/catalogue/page-6.html" then inr (response_200 "page 6")
       else inr response_404;
     find_all_product_pod := fun body =>
       if String.eqb body "page 1" then [book_a; book_without_price; book_b]
       else if String.eqb body "page 3" then [book_without_price]
       else if String.eqb body "page 4" then [book_a]
       else if String.eqb body "page 6" then [book_b]
       else [];
     can_open := fun _ => true |}.

(** A site whose first page cannot be reached while the second can. *)
Definition flaky_env : Env :=
  {| requests_get := fun url _ _ =>
       if String.eqb url "http://books.toscrape.com" then inl ConnectionError
       else inr (response_200 "page 2");
     find_all_product_pod := fun body =>
       if String.eqb body "page 2" then [book_a] else [];
     can_open := fun _ => true |}.

(** A site that cannot be reached at all. *)
Definition unreachable_env : Env :=
  {| requests_get := fun _ _ _ => inl ConnectionError;
     find_all_product_pod := fun _ => [];
     can_open := fun _ => true |}.

(** A site that answers every request with a page without entries. *)
Definition empty_env : Env :=
  {| requests_get := fun _ _ _ => inr (response_200 "");
     find_all_product_pod := fun _ => [];
     can_open := fun _ => true |}.

(** ** Vocabulary for the rest of the program: persistence, the log, trimming *)

(** The store [st] with the files [fs]. *)
Definition with_files (st : State) (fs : gmap string Rows) : State :=
  {| all_books := all_books st; trace := trace st; files := fs |}.

(** Whether [csv.DictWriter] takes a dictionary: each of its keys is a field
    name (the test of [dict_to_list]). *)
Definition fits (fieldnames : list string) (rowdict : Dict) : bool :=
  forallb (fun k => bool_decide (k ∈ fieldnames)) (keys rowdict).

(** The cells of the row of a dictionary: its value for each field name, the
    empty string where it has none. *)
Definition row_of (fieldnames : list string) (rowdict : Dict) : list string :=
  (fun k => default "" (dict_get rowdict k)) <$> fieldnames.

(** The dictionaries of a sequence that come before the first one the writer
    does not take. *)
Fixpoint written (fieldnames : list string) (books : list Dict) : list Dict :=
  match books with
  | [] => []
  | book :: rest =>
      if fits fieldnames book then book :: written fieldnames rest else []
  end.

(** A row read back against the header, as [csv.DictReader] pairs them. *)
Definition read_row (header row : list string) : Dict := zip header row.

(** The fetch errors logged in a trace: page and exception. *)
Definition logged_errors (evs : list Event) : list (Z * Exn) :=
  omap (fun ev => match ev with
                  | EvLog ERROR (ErrorScrapingPage page e) => Some (page, e)
                  | _ => None
                  end) evs.

(** The extraction warnings logged in a trace. *)
Definition extraction_warnings (evs : list Event) : list Exn :=
  omap (fun ev => match ev with
                  | EvLog WARNING (CouldNotExtract e) => Some e
                  | _ => None
                  end) evs.

(** The pages a trace reports as having no books. *)
Definition no_books_warnings (evs : list Event) : list Z :=
  omap (fun ev => match ev with
                  | EvLog WARNING (NoBooksFound page) => Some page
                  | _ => None
                  end) evs.

(** A page that was fetched and has at least one item element. *)
Definition has_items (env : Env) (self : WebScraper) (page : Z) : bool :=
  match page_items env self page with
  | [] => false
  | _ => true
  end.

(** The fetch error of a page, if its fetch fails. *)
Definition fetch_error (env : Env) (self : WebScraper) (page : Z) : option (Z * Exn) :=
  match page_outcome env self page with
  | FetchFailed e => Some (page, RequestExn e)
  | _ => None
  end.

(** A string of whitespace only. *)
Fixpoint all_space (s : string) : bool :=
  match s with
  | EmptyString => true
  | String c rest => py_isspace c && all_space rest
  end.

(** Whether a string begins, or ends, with a whitespace character. *)
Definition starts_with_space (s : string) : bool :=
  match s with
  | EmptyString => false
  | String c _ => py_isspace c
  end.

Definition ends_with_space (s : string) : bool :=
  starts_with_space (String.rev s).

(** The field names of a record of the crawl. *)
Definition record_fields : list string :=
  ["Title"; "Price"; "Availability"; "Rating"; "URL"].

(** ** More examples *)

Definition record_a : Dict :=
  [("Title", "A Light in the Attic"); ("Price", "51.77");
   ("Availability", "In stock"); ("Rating", "Three");
   ("URL", "http://books.toscrape.com/catalogue/a-light-in-the-attic_1000/index.html")].

(** A dictionary with fewer fields, and one with a field of its own. *)
Definition record_short : Dict := [("Price", "53.74"); ("Title", "Tipping the Velvet")].
Definition record_stray : Dict := [("Title", "Soumission"); ("ISBN", "998")].


(** An entry whose rating paragraph carries the class [star-rating] alone. *)
Definition book_without_rating : Tag :=
  MkTag [] (Some ["product_pod"]) "Sharp Objects"
    (child book_a)
    (fun name class_ =>
       if String.eqb class_ "star-rating"
       then Some (leaf [] (Some ["star-rating"]) "")
       else find book_a name class_).

(** ** The program against libraries that may raise anything

    [Env] above is the outside within the documented contracts of the
    libraries: [requests.get] raises nothing but a [RequestException], the
    parser raises nothing and [open] fails with an [OSError]. The module
    [Raw] is the same program without these assumptions: the request, the
    parse and [open] may each raise any exception. *)

Module Raw.

Record Env : Type := {
  requests_get : string -> Dict -> Z -> Exn + Response;
  find_all_product_pod : string -> Exn + list Tag;
  open_raises : string -> option Exn
}.

(** [requests.get(url, headers=headers, timeout=timeout)] *)
Definition get (env : Env) (url : string) (headers : Dict) (timeout : Z) : M Response :=
  emit (EvGet url headers timeout);;
  match requests_get env url headers timeout with
  | inl e => lift (Raises e)
  | inr response => mret response
  end.

(** [BeautifulSoup(text, 'html.parser').find_all('article', class_='product_pod')] *)
Definition find_all (env : Env) (body : string) : M (list Tag) :=
  match find_all_product_pod env body with
  | inl e => lift (Raises e)
  | inr books => mret books
  end.

(** The body of [for page in range(1, max_pages + 1)], lines 41-65. *)
Definition scrape_page (env : Env) (self : WebScraper) (page : Z) : M Flow :=
  try_except
    (let url := page_url self page in
     response ← get env url (headers self) 10;
     raise_for_status response;;
     books ← find_all env (response_text response);
     match books with
     | [] =>
         logger_warning (NoBooksFound page);;
         mret Break
     | _ =>
         for_book self books;;
         time_sleep 1;;
         mret Fallthrough
     end)
    isinstance_RequestException
    (fun e => logger_error (ErrorScrapingPage page e);; mret Continue).

Fixpoint for_page (env : Env) (self : WebScraper) (pages : list Z) : M unit :=
  match pages with
  | [] => mret tt
  | page :: rest =>
      flow ← scrape_page env self page;
      match flow with
      | Break => mret tt
      | _ => for_page env self rest
      end
  end.

(** Lines 28-67. *)
Definition scrape_books (env : Env) (self : WebScraper) (max_pages : Z) : M (list Dict) :=
  set_all_books [];;
  for_page env self (range 1 (max_pages + 1));;
  get_all_books.

(** [open(filename, 'w', ...)]: creates or truncates the file, or raises. *)
Definition open_w (env : Env) (filename : string) : M unit := fun st =>
  match open_raises env filename with
  | None => (Returns tt, {| all_books := all_books st; trace := trace st;
                            files := <[filename := []]> (files st) |})
  | Some e => (Raises e, st)
  end.

(** Lines 98-122. *)
Definition save_to_csv (env : Env) (self : WebScraper) (books : list Dict)
    (filename : string) : M unit :=
  match books with
  | [] =>
      logger_warning NoDataToSave;;
      mret tt
  | first :: _ =>
      try_except
        (open_w env filename;;
         let fieldnames := keys first in
         writeheader filename fieldnames;;
         for_row filename fieldnames books;;
         logger_info (DataSavedTo filename))
        isinstance_IOError
        (fun e => logger_error (ErrorSavingCSV e))
  end.

(** Lines 124-129. *)
Definition main (env : Env) : M unit :=
  let base_url := "http://books.toscrape.com" in
  let scraper := __init__ base_url in
  books ← scrape_books env scraper 3;
  save_to_csv env scraper books "scraped_books.csv".

End Raw.

(** The outside of [Env] as one of [Raw.Env]: the libraries within their
    contracts. *)
Definition raw_env (env : Env) : Raw.Env :=
  {| Raw.requests_get := fun url hdrs timeout =>
       match requests_get env url hdrs timeout with
       | inl e => inl (RequestExn e)
       | inr response => inr response
       end;
     Raw.find_all_product_pod := fun body => inr (find_all_product_pod env body);
     Raw.open_raises := fun filename =>
       if can_open env filename then None else Some OSError |}.

(** The fetch of a page, request and status check, with whatever it raises. *)
Definition raw_fetch (renv : Raw.Env) (self : WebScraper) (page : Z) : Exn + Response :=
  match Raw.requests_get renv (page_url self page) (headers self) 10 with
  | inl x => inl x
  | inr response =>
      if ok response then inr response
      else inl (RequestExn (HTTPError (status_code response)))
  end.

(** The fetch and the parse of a page. *)
Definition raw_parse (renv : Raw.Env) (self : WebScraper) (page : Z) : Exn + list Tag :=
  match raw_fetch renv self page with
  | inl x => inl x
  | inr response => Raw.find_all_product_pod renv (response_text response)
  end.

(** What becomes of the iteration for a page: an exception that is no
    [RequestException] leaves the loop, everything else is one of the three
    outcomes the controller handles. *)
Inductive RawOutcome : Type :=
  | Propagates (x : Exn)
  | Handled (o : PageOutcome).

Definition raw_page_outcome (renv : Raw.Env) (self : WebScraper) (page : Z) : RawOutcome :=
  match raw_parse renv self page with
  | inl (RequestExn e) => Handled (FetchFailed e)
  | inl x => Propagates x
  | inr [] => Handled ParsedEmpty
  | inr books => Handled (ParsedNonEmpty books)
  end.

Definition outcome_flow (o : PageOutcome) : Flow :=
  match o with
  | FetchFailed _ => Continue
  | ParsedEmpty => Break
  | ParsedNonEmpty _ => Fallthrough
  end.

Definition outcome_books (self : WebScraper) (o : PageOutcome) : list Dict :=
  match o with
  | ParsedNonEmpty books => records_of self books
  | _ => []
  end.

Definition outcome_events (self : WebScraper) (page : Z) (o : PageOutcome) : list Event :=
  match o with
  | FetchFailed e => [EvLog ERROR (ErrorScrapingPage page (RequestExn e))]
  | ParsedEmpty => [EvLog WARNING (NoBooksFound page)]
  | ParsedNonEmpty books => flat_map (extract_events self) books ++ [EvSleep 1]
  end.

Definition raw_page_books (renv : Raw.Env) (self : WebScraper) (page : Z) : list Dict :=
  match raw_page_outcome renv self page with
  | Propagates _ => []
  | Handled o => outcome_books self o
  end.

Definition raw_page_events (renv : Raw.Env) (self : WebScraper) (page : Z) : list Event :=
  EvGet (page_url self page) (headers self) 10 ::
  match raw_page_outcome renv self page with
  | Propagates _ => []
  | Handled o => outcome_events self page o
  end.

(** The pages after which the loop does not go on: an empty page, or one
    whose iteration raises. *)
Definition raw_stops (renv : Raw.Env) (self : WebScraper) (page : Z) : bool :=
  match raw_page_outcome renv self page with
  | Propagates _ => true
  | Handled ParsedEmpty => true
  | Handled _ => false
  end.

(** The pages of a sequence up to and including the first that stops. *)
Fixpoint visited_until (stop : Z -> bool) (pages : list Z) : list Z :=
  match pages with
  | [] => []
  | page :: rest =>
      if stop page then [page] else page :: visited_until stop rest
  end.

(** How the loop over a sequence of pages ends. *)
Fixpoint raw_result (renv : Raw.Env) (self : WebScraper) (pages : list Z) : Outcome unit :=
  match pages with
  | [] => Returns tt
  | page :: rest =>
      match raw_page_outcome renv self page with
      | Propagates x => Raises x
      | Handled ParsedEmpty => Returns tt
      | Handled _ => raw_result renv self rest
      end
  end.

Definition raw_pages_visited (renv : Raw.Env) (self : WebScraper) (max_pages : Z) : list Z :=
  visited_until (raw_stops renv self) (range 1 (max_pages + 1)).

(** "A page whose fetch fails (timeout, network error, or non-2xx HTTP
    status)", as the specification words it. *)
Definition fetch_fails_as_specified (renv : Raw.Env) (self : WebScraper) (page : Z) : Prop :=
  match Raw.requests_get renv (page_url self page) (headers self) 10 with
  | inl _ => True
  | inr response => ~ (200 <= status_code response < 300)
  end.

(** "For every page whose fetch fails, the crawl proceeds to the next page
    index rather than stopping." *)
Definition failed_fetch_is_skipped_as_specified (renv : Raw.Env) (self : WebScraper)
    (max_pages : Z) : Prop :=
  let evs := trace (Raw.scrape_books renv self max_pages initial_state).2 in
  forall page,
    1 <= page < max_pages ->
    fetch_fails_as_specified renv self page ->
    page_url self page ∈ fetched_urls evs ->
    page_url self (page + 1) ∈ fetched_urls evs.

(** The currency symbols among the characters below 256: dollar, cent,
    pound, currency sign, yen. *)
Definition is_currency_symbol (c : Ascii.ascii) : bool :=
  let n := Z.of_N (Ascii.N_of_ascii c) in
  (n =? 36) || ((162 <=? n) && (n <=? 165)).

Fixpoint has_currency_symbol (s : string) : bool :=
  match s with
  | EmptyString => false
  | String c rest => is_currency_symbol c || has_currency_symbol rest
  end.

(** The markup of an item element is complete, and [d] is its record. *)
Definition complete_markup (self : WebScraper) (book : Tag) (d : Dict) : Prop :=
  exists h3 a title href price_p availability_p rating_p classes rating,
    child book "h3" = Some h3 /\
    child h3 "a" = Some a /\
    dict_get (attrs a) "title" = Some title /\
    dict_get (attrs a) "href" = Some href /\
    find book "p" "price_color" = Some price_p /\
    find book "p" "instock availability" = Some availability_p /\
    find book "p" "star-rating" = Some rating_p /\
    class_attr rating_p = Some classes /\
    classes !! 1%nat = Some rating /\
    d = [("Title", title);
         ("Price", slice_from_1 (text price_p));
         ("Availability", strip (text availability_p));
         ("Rating", rating);
         ("URL", base_url self +:+ "/" +:+ href)].

(** ** Examples for the libraries outside their contracts *)

(** A site that answers every request with status 304 and an empty body;
    [requests] reports such a response as [ok]. *)
Definition not_modified_env : Raw.Env :=
  {| Raw.requests_get := fun _ _ _ =>
       inr {| status_code := 304; ok := true; response_text := "" |};
     Raw.find_all_product_pod := fun _ => inr [];
     Raw.open_raises := fun _ => None |}.

(** The example site, where the request for page 2 raises a [ValueError]
    (as [urllib3]'s [LocationParseError] is) instead of timing out. *)
Definition crashing_env : Raw.Env :=
  {| Raw.requests_get := fun url hdrs timeout =>
       if String.eqb url "http://books.toscrape.com/catalogue/page-2.html"
       then inl ValueError
       else Raw.requests_get (raw_env example_env) url hdrs timeout;
     Raw.find_all_product_pod := Raw.find_all_product_pod (raw_env example_env);
     Raw.open_raises := fun _ => None |}.


(** The first entry of the example site as the site really delivers its
    price: the pound sign preceded by the character 194, the two characters
    the comment of line 81 names. *)
Definition book_two_character_symbol : Tag :=
  catalogue_entry "A Light in the Attic" "catalogue/a-light-in-the-attic_1000/index.html"
    "Three" (Some (String (Ascii.ascii_of_N 194) (pound +:+ "51.77"))).

(** The same entry with a price that carries no currency symbol. *)
Definition book_plain_price : Tag :=
  catalogue_entry "A Light in the Attic" "catalogue/a-light-in-the-attic_1000/index.html"
    "Three" (Some "51.77").

(** * Properties *)

(** ** The monad and the store *)

Lemma extend_nil st : extend st [] [] = st.
Proof. destruct st; unfold extend; simpl. by rewrite !app_nil_r. Qed.

Lemma extend_extend st b1 e1 b2 e2 :
  extend (extend st b1 e1) b2 e2 = extend st (b1 ++ b2) (e1 ++ e2).
Proof. unfold extend; simpl. by rewrite !app_assoc. Qed.

Lemma emit_extend ev st : emit ev st = (Returns tt, extend st [] [ev]).
Proof. unfold emit, extend. by rewrite app_nil_r. Qed.

Lemma all_books_append_extend d st :
  all_books_append d st = (Returns tt, extend st [d] []).
Proof. unfold all_books_append, extend. by rewrite app_nil_r. Qed.

Lemma requests_made_app evs1 evs2 :
  requests_made (evs1 ++ evs2) = requests_made evs1 ++ requests_made evs2.
Proof. apply omap_app. Qed.

Lemma waits_app evs1 evs2 : waits (evs1 ++ evs2) = waits evs1 ++ waits evs2.
Proof. apply omap_app. Qed.

(** ** The extractor *)

(** A record that extraction returns has the five fields. *)
Lemma book_details_fields self book d :
  book_details self book = Returns d ->
  exists title price availability rating book_url,
    read_title book = Returns title /\
    read_price book = Returns price /\
    read_availability book = Returns availability /\
    read_rating book = Returns rating /\
    read_book_url self book = Returns book_url /\
    d = [("Title", title); ("Price", price); ("Availability", availability);
         ("Rating", rating); ("URL", book_url)].
Proof.
  unfold book_details. intros H.
  destruct (read_title book) as [title|]; [|discriminate].
  destruct (read_price book) as [price|]; [|discriminate].
  destruct (read_availability book) as [availability|]; [|discriminate].
  destruct (read_rating book) as [rating|]; [|discriminate].
  destruct (read_book_url self book) as [book_url|]; [|discriminate].
  injection H as <-. by exists title, price, availability, rating, book_url.
Qed.

(** Extraction raises exactly when one of the five reads raises. *)
Lemma book_details_raises self book :
  (exists e, book_details self book = Raises e) <->
  (exists e, read_title book = Raises e \/ read_price book = Raises e \/
             read_availability book = Raises e \/ read_rating book = Raises e \/
             read_book_url self book = Raises e).
Proof.
  unfold book_details. split.
  - intros [e H].
    destruct (read_title book) as [title|e1]; [|exists e1; tauto].
    destruct (read_price book) as [price|e2]; [|exists e2; tauto].
    destruct (read_availability book) as [availability|e3]; [|exists e3; tauto].
    destruct (read_rating book) as [rating|e4]; [|exists e4; tauto].
    destruct (read_book_url self book) as [book_url|e5]; [|exists e5; tauto].
    discriminate.
  - intros [e H].
    destruct (read_title book) as [title|e1]; [|by exists e1].
    destruct (read_price book) as [price|e2]; [|by exists e2].
    destruct (read_availability book) as [availability|e3]; [|by exists e3].
    destruct (read_rating book) as [rating|e4]; [|by exists e4].
    destruct (read_book_url self book) as [book_url|e5]; [|by exists e5].
    destruct H as [H|[H|[H|[H|H]]]]; discriminate H.
Qed.

Lemma book_details_truthy self book d :
  book_details self book = Returns d -> dict_truthy d = true.
Proof.
  intros H. apply book_details_fields in H as (?&?&?&?&?&_&_&_&_&_&->). done.
Qed.

(** [_extract_book_details] always returns: the record, or the empty
    dictionary after a warning. *)
Lemma extract_book_details_spec self book st :
  _extract_book_details self book st =
  match book_details self book with
  | Returns d => (Returns d, st)
  | Raises e => (Returns [], extend st [] [EvLog WARNING (CouldNotExtract e)])
  end.
Proof.
  unfold _extract_book_details, try_except, lift.
  destruct (book_details self book) as [d|e]; [done|].
  simpl. unfold mbind, M_bind, logger_warning. by rewrite emit_extend.
Qed.

(** The inner loop appends the records of the elements, in order, and logs
    one warning for each element it drops. *)
Lemma for_book_spec self books st :
  for_book self books st =
  (Returns tt, extend st (records_of self books) (flat_map (extract_events self) books)).
Proof.
  revert st. induction books as [|book rest IH]; intros st.
  - simpl. by rewrite extend_nil.
  - simpl. unfold mbind at 1, M_bind.
    rewrite extract_book_details_spec.
    unfold records_of, record_of, extract_events in *. simpl.
    destruct (book_details self book) as [d|e] eqn:Hd.
    + rewrite (book_details_truthy _ _ _ Hd). unfold mbind, M_bind.
      rewrite all_books_append_extend, IH, extend_extend. done.
    + simpl. unfold mbind, M_bind. simpl. rewrite IH, extend_extend. done.
Qed.

(** ** One iteration of the page loop *)

Section crawl.
Context (env : Env) (self : WebScraper).

Lemma get_spec url hdrs timeout st :
  get env url hdrs timeout st =
  match requests_get env url hdrs timeout with
  | inl e => (Raises (RequestExn e), extend st [] [EvGet url hdrs timeout])
  | inr response => (Returns response, extend st [] [EvGet url hdrs timeout])
  end.
Proof.
  unfold get, mbind, M_bind. rewrite emit_extend.
  by destruct (requests_get env url hdrs timeout).
Qed.

(** The iteration for a page, by the outcome of the page. *)
Lemma scrape_page_spec page st :
  scrape_page env self page st =
  (Returns match page_outcome env self page with
           | FetchFailed _ => Continue
           | ParsedEmpty => Break
           | ParsedNonEmpty _ => Fallthrough
           end,
   extend st (page_books env self page) (page_events env self page)).
Proof.
  unfold scrape_page, try_except, page_books, page_items, page_events,
    page_outcome, fetch.
  unfold mbind at 1, M_bind at 1. rewrite get_spec.
  destruct (requests_get env (page_url self page) (headers self) 10)
    as [e|response]; simpl.
  { unfold mbind, M_bind, logger_error. rewrite emit_extend, extend_extend. done. }
  unfold mbind at 1, M_bind at 1, raise_for_status.
  destruct (ok response); simpl.
  2:{ unfold mbind, M_bind, logger_error. rewrite emit_extend, extend_extend. done. }
  destruct (find_all_product_pod env (response_text response)) as [|book rest].
  { unfold mbind, M_bind, logger_warning. rewrite emit_extend, extend_extend. done. }
  unfold mbind at 1, M_bind at 1. rewrite for_book_spec.
  unfold mbind, M_bind, time_sleep. rewrite emit_extend, !extend_extend.
  simpl. by rewrite !app_nil_r.
Qed.

(** ** The page loop *)

Lemma for_page_spec pages st :
  for_page env self pages st =
  (Returns tt,
   extend st (flat_map (page_books env self) (visited env self pages))
             (flat_map (page_events env self) (visited env self pages))).
Proof.
  revert st. induction pages as [|page rest IH]; intros st; simpl.
  - by rewrite extend_nil.
  - unfold mbind, M_bind. rewrite scrape_page_spec. unfold is_empty_page.
    destruct (page_outcome env self page); simpl;
      rewrite ?app_nil_r, ?IH, ?extend_extend; done.
Qed.

(** [scrape_books] always returns; its result and its effects are those of
    the pages it reaches. *)
Lemma scrape_books_spec max_pages st :
  scrape_books env self max_pages st =
  (Returns (flat_map (page_books env self) (pages_visited env self max_pages)),
   {| all_books := flat_map (page_books env self) (pages_visited env self max_pages);
      trace := trace st ++ flat_map (page_events env self) (pages_visited env self max_pages);
      files := files st |}).
Proof.
  unfold scrape_books, pages_visited, mbind, M_bind, set_all_books, get_all_books.
  rewrite for_page_spec. done.
Qed.

Lemma requests_made_extract_events books :
  requests_made (flat_map (extract_events self) books) = [].
Proof.
  induction books as [|b rest IH]; [done|]. simpl.
  rewrite requests_made_app, IH. unfold extract_events.
  by destruct (book_details self b).
Qed.

Lemma waits_extract_events books :
  waits (flat_map (extract_events self) books) = [].
Proof.
  induction books as [|b rest IH]; [done|]. simpl.
  rewrite waits_app, IH. unfold extract_events.
  by destruct (book_details self b).
Qed.

(** Every iteration makes exactly one request, for the address of its page. *)
Lemma requests_made_page_events page :
  requests_made (page_events env self page) = [(page_url self page, headers self, 10)].
Proof.
  unfold page_events.
  change (requests_made (EvGet ?u ?h ?t :: ?l)) with ((u, h, t) :: requests_made l).
  f_equal. destruct (page_outcome env self page); try done.
  by rewrite requests_made_app, requests_made_extract_events.
Qed.

Lemma requests_made_pages pages :
  requests_made (flat_map (page_events env self) pages) =
  (fun page => (page_url self page, headers self, 10)) <$> pages.
Proof.
  induction pages as [|page rest IH]; [done|].
  cbn [flat_map]. rewrite requests_made_app, requests_made_page_events, IH. done.
Qed.

(** ** Which pages a crawl reaches *)

(** Over consecutive page indices the loop reaches an initial segment: it
    ends at the first empty page, or covers the whole range. *)
Lemma visited_seqZ (m n : Z) :
  0 <= n ->
  exists K : Z,
    0 <= K <= n /\
    visited env self (seqZ m n) = seqZ m K /\
    (forall p, m <= p < m + K - 1 -> is_empty_page env self p = false) /\
    (K < n -> 1 <= K /\ is_empty_page env self (m + K - 1) = true).
Proof.
  intros Hn. rewrite <- (Z2Nat.id n Hn). clear Hn.
  generalize (Z.to_nat n) as k. clear n. intros k. revert m.
  induction k as [|k IH]; intros m.
  - exists 0. split_and!; [lia | lia | done | intros; lia | intros; lia].
  - rewrite seqZ_cons by lia. simpl visited.
    replace (Z.pred (Z.of_nat (S k))) with (Z.of_nat k) by lia.
    destruct (is_empty_page env self m) eqn:Hm.
    + exists 1. split_and!; [lia | lia | | intros; lia | ].
      * rewrite seqZ_cons by lia. f_equal.
      * intros _. split; [lia|]. by replace (m + 1 - 1) with m by lia.
    + destruct (IH (Z.succ m)) as (K & HK & Hv & Hbefore & Hstop).
      exists (K + 1). split_and!; [lia | lia | | | ].
      * rewrite Hv. rewrite (seqZ_cons m (K + 1)) by lia.
        by replace (Z.pred (K + 1)) with K by lia.
      * intros p Hp. destruct (decide (p = m)) as [->|Hne]; [done|].
        apply Hbefore. lia.
      * intros HK1. replace (m + (K + 1) - 1) with (Z.succ m + K - 1) by lia.
        destruct Hstop as [? ?]; [lia|]. split; [lia|done].
Qed.

(** The pages a crawl reaches are [1..K]; [K] is the first empty page, or
    [max_pages] when no page in range is empty. *)
Lemma pages_visited_spec max_pages :
  exists K : Z,
    0 <= K <= Z.max 0 max_pages /\
    pages_visited env self max_pages = range 1 (K + 1) /\
    (forall p, 1 <= p < K -> is_empty_page env self p = false) /\
    (K < max_pages -> 1 <= K /\ is_empty_page env self K = true).
Proof.
  unfold pages_visited, range.
  replace (max_pages + 1 - 1) with max_pages by lia.
  destruct (decide (0 <= max_pages)) as [Hn|Hn].
  - destruct (visited_seqZ 1 max_pages Hn) as (K & HK & Hv & Hbefore & Hstop).
    exists K. replace (K + 1 - 1) with K by lia.
    split_and!; [lia | lia | done | | ].
    + intros p Hp. apply Hbefore. lia.
    + intros HKn. destruct (Hstop HKn) as [HK1 He].
      split; [done|]. by replace (1 + K - 1) with K in He by lia.
  - exists 0. rewrite seqZ_nil by lia.
    split_and!; [lia | lia | done | intros; lia | intros; lia].
Qed.

Lemma fetched_urls_pages pages :
  fetched_urls (flat_map (page_events env self) pages) = page_url self <$> pages.
Proof.
  unfold fetched_urls. rewrite requests_made_pages, <- !list_fmap_compose. done.
Qed.

(** A page that contributes nothing can be left out of the sum. *)
Lemma flat_map_skip {A : Type} (f : Z -> list A) (page : Z) (pages : list Z) :
  f page = [] ->
  flat_map f pages = flat_map f (filter (fun q => q <> page) pages).
Proof.
  intros Hf. induction pages as [|q rest IH]; [done|].
  rewrite filter_cons. destruct (decide (q <> page)) as [Hq|Hq]; simpl.
  - by rewrite IH.
  - apply dec_stable in Hq as ->. by rewrite Hf, IH.
Qed.

(** If every page before [K] lets the crawl go on and [K] is in range, the
    crawl goes on after [page]. *)
Lemma crawl_goes_on max_pages K page :
  (K < max_pages -> 1 <= K /\ is_empty_page env self K = true) ->
  is_empty_page env self page = false ->
  1 <= page <= K -> page < max_pages -> page + 1 <= K.
Proof.
  intros Hstop Hpage Hrange Hmax.
  destruct (decide (page = K)) as [->|Hne]; [|lia].
  destruct Hstop as [_ HK]; [lia|]. congruence.
Qed.

End crawl.

Lemma elem_of_records_of self books d :
  d ∈ records_of self books <->
  exists book, book ∈ books /\ book_details self book = Returns d.
Proof.
  unfold records_of. rewrite list_elem_of_omap. unfold record_of. split.
  - intros (book & Hin & Hd). exists book. split; [done|].
    destruct (book_details self book); congruence.
  - intros (book & Hin & Hd). exists book. by rewrite Hd.
Qed.

Lemma records_of_app self books1 books2 :
  records_of self (books1 ++ books2) = records_of self books1 ++ records_of self books2.
Proof. apply omap_app. Qed.

Lemma records_of_raises self books :
  (forall book, book ∈ books -> exists e, book_details self book = Raises e) ->
  records_of self books = [].
Proof.
  induction books as [|b rest IH]; intros H; [done|].
  unfold records_of in *. simpl. unfold record_of at 1.
  destruct (H b) as [e ->]; [left|]. apply IH. intros book Hin. apply H. by right.
Qed.

(** ** Addresses *)

Lemma string_length_app (s1 s2 : string) :
  String.length (s1 +:+ s2) = (String.length s1 + String.length s2)%nat.
Proof. induction s1 as [|c s1 IH]; simpl; [done|]. by rewrite IH. Qed.

Lemma string_app_inj_r (s1 s2 t : string) : s1 +:+ t = s2 +:+ t -> s1 = s2.
Proof.
  revert s2. induction s1 as [|c s1 IH]; intros [|c2 s2] H; simpl in H.
  - done.
  - apply (f_equal String.length) in H.
    rewrite !string_length_app in H. simpl in H. rewrite ?string_length_app in H. lia.
  - apply (f_equal String.length) in H.
    rewrite !string_length_app in H. simpl in H. rewrite ?string_length_app in H. lia.
  - injection H as -> H. f_equal. by apply IH.
Qed.

(** Distinct page indices from 1 on have distinct addresses. *)
Lemma page_url_inj self p q :
  1 <= p -> 1 <= q -> page_url self p = page_url self q -> p = q.
Proof.
  unfold page_url, str_of_int. intros Hp Hq H.
  destruct (Z.ltb_spec 1 p), (Z.ltb_spec 1 q); try lia.
  - apply (inj (String.app _)) in H. apply (inj (String.app _)) in H.
    apply string_app_inj_r in H. by apply (inj pretty) in H.
  - apply (f_equal String.length) in H. rewrite !string_length_app in H.
    simpl in H. lia.
  - apply (f_equal String.length) in H. rewrite !string_length_app in H.
    simpl in H. lia.
Qed.

Lemma StronglySorted_seqZ (m n : Z) : StronglySorted Z.lt (seqZ m n).
Proof.
  destruct (decide (0 <= n)) as [Hn|Hn]; [|rewrite seqZ_nil by lia; constructor].
  rewrite <- (Z2Nat.id n Hn). generalize (Z.to_nat n) as k. clear. intros k.
  revert m. induction k as [|k IH]; intros m; [constructor|].
  rewrite seqZ_cons by lia.
  replace (Z.pred (Z.of_nat (S k))) with (Z.of_nat k) by lia.
  constructor; [apply IH|]. apply Forall_seqZ. intros; lia.
Qed.


(** Settles the first two parts of a statement about a crawl, the run itself
    and its trace, and rewrites the pages reached with [Hv]. *)
Ltac run_crawl Hv :=
  split; [apply scrape_books_spec|]; simpl; split; [done|]; rewrite Hv.

(** * The claims of the specification *)

(** C1. For every [max_pages = N >= 0], [scrape_books] returns, having
    fetched the addresses of the pages [1..K] in that order, with [K <= N];
    no page before [K] is an empty page (a successful fetch that parses into
    no item element), page [K] is one whenever [K < N], and [K = N] when no
    page of [1..N] is empty; the result is the concatenation of the records
    of the pages [1..K]. *)
Theorem scrape_books_stops_at_first_empty_page env self max_pages st :
  0 <= max_pages ->
  exists (K : Z) (books : list Dict) (st' : State) (evs : list Event),
    scrape_books env self max_pages st = (Returns books, st') /\
    trace st' = trace st ++ evs /\
    0 <= K <= max_pages /\
    fetched_urls evs = page_url self <$> range 1 (K + 1) /\
    (forall p, 1 <= p < K -> is_empty_page env self p = false) /\
    (K < max_pages -> 1 <= K /\ is_empty_page env self K = true) /\
    ((forall p, 1 <= p <= max_pages -> is_empty_page env self p = false) ->
     K = max_pages) /\
    books = flat_map (page_books env self) (range 1 (K + 1)).
Proof.
  intros Hn.
  destruct (pages_visited_spec env self max_pages) as (K & HK & Hv & Hbefore & Hstop).
  eexists K, _, _, _. run_crawl Hv. rewrite fetched_urls_pages.
  split_and!; [lia | lia | done | done | done | | done].
  intros Hnone. destruct (decide (K < max_pages)) as [Hlt|]; [|lia].
  destruct (Hstop Hlt) as [HK1 He]. rewrite Hnone in He by lia. done.
Qed.

Lemma scrape_books_stops_at_first_empty_page_witness :
  exists (K : Z) (books : list Dict) (st' : State) (evs : list Event),
    scrape_books example_env example_scraper 6 initial_state = (Returns books, st') /\
    trace st' = trace initial_state ++ evs /\
    0 <= K <= 6 /\
    fetched_urls evs = page_url example_scraper <$> range 1 (K + 1) /\
    (forall p, 1 <= p < K -> is_empty_page example_env example_scraper p = false) /\
    (K < 6 -> 1 <= K /\ is_empty_page example_env example_scraper K = true) /\
    ((forall p, 1 <= p <= 6 -> is_empty_page example_env example_scraper p = false) ->
     K = 6) /\
    books = flat_map (page_books example_env example_scraper) (range 1 (K + 1)).
Proof.
  apply (scrape_books_stops_at_first_empty_page example_env example_scraper 6 initial_state).
  lia.
Defined.

(** C7. The addresses fetched are those of a strictly increasing sequence of
    page indices, no address is fetched twice, and the result lists the
    records page by page in that order and, within a page, in the order of
    its item elements: each element contributes its record or nothing, and
    nothing is reordered or merged. *)
Theorem scrape_books_preserves_order env self max_pages st :
  exists (pages : list Z) (books : list Dict) (st' : State) (evs : list Event),
    scrape_books env self max_pages st = (Returns books, st') /\
    trace st' = trace st ++ evs /\
    fetched_urls evs = page_url self <$> pages /\
    StronglySorted Z.lt pages /\
    NoDup (fetched_urls evs) /\
    books = flat_map (fun page => omap (record_of self) (page_items env self page)) pages.
Proof.
  destruct (pages_visited_spec env self max_pages) as (K & HK & Hv & _).
  eexists (range 1 (K + 1)), _, _, _.
  run_crawl Hv. rewrite fetched_urls_pages.
  split_and!; [done | apply StronglySorted_seqZ | | done].
  apply NoDup_fmap_2_strong; [|apply NoDup_seqZ].
  intros p q Hp%elem_of_seqZ Hq%elem_of_seqZ. apply page_url_inj; lia.
Qed.

(** Two item elements with equal fields give two records: page 4 of the
    example site repeats the first entry of page 1, and the result of a crawl
    of four pages holds its record twice. *)
Remark duplicate_records_are_kept :
  exists a b,
    record_of example_scraper book_a = Some a /\
    record_of example_scraper book_b = Some b /\
    (scrape_books example_env example_scraper 4 initial_state).1 = Returns [a; b; a].
Proof. eexists _, _. split_and!; reflexivity. Qed.

(** C10. A scraper made by [WebScraper(base)] addresses page 1 by the bare
    base URL and a page [N > 1] by [{base}/catalogue/page-{N}.html]; every
    request of a crawl goes to the address of a page of [1..max_pages], with
    the single header [User-Agent], whose value starts as a browser's does,
    and with a timeout of 10 seconds. *)
Theorem requests_use_page_url_user_agent_and_timeout env base max_pages st :
  page_url (__init__ base) 1 = base /\
  (forall N, 1 < N ->
     page_url (__init__ base) N =
     base +:+ "/catalogue/page-" +:+ str_of_int N +:+ ".html") /\
  String.prefix "Mozilla/5.0" user_agent = true /\
  exists (pages : list Z) (books : list Dict) (st' : State) (evs : list Event),
    scrape_books env (__init__ base) max_pages st = (Returns books, st') /\
    trace st' = trace st ++ evs /\
    Forall (fun N => 1 <= N <= max_pages) pages /\
    requests_made evs =
      (fun N => (page_url (__init__ base) N, [("User-Agent", user_agent)], 10)) <$> pages.
Proof.
  split; [done|]. split.
  { intros N HN. unfold page_url. destruct (Z.ltb_spec 1 N); [done|lia]. }
  split; [done|].
  destruct (pages_visited_spec env (__init__ base) max_pages) as (K & HK & Hv & _).
  eexists (range 1 (K + 1)), _, _, _.
  run_crawl Hv. rewrite requests_made_pages. split; [|done].
  apply Forall_seqZ. intros; lia.
Qed.

Lemma requests_use_page_url_user_agent_and_timeout_witness :
  page_url example_scraper 3 = "http://books.toscrape.com/catalogue/page-3.html" /\
  exists (pages : list Z) (books : list Dict) (st' : State) (evs : list Event),
    scrape_books example_env example_scraper 6 initial_state = (Returns books, st') /\
    trace st' = trace initial_state ++ evs /\
    Forall (fun N => 1 <= N <= 6) pages /\
    requests_made evs =
      (fun N => (page_url example_scraper N, [("User-Agent", user_agent)], 10)) <$> pages.
Proof.
  destruct (requests_use_page_url_user_agent_and_timeout
              example_env example_base 6 initial_state) as (_ & Hurl & _ & Hrun).
  split; [|exact Hrun].
  refine (Hurl 3 _). lia.
Defined.

(** C5. When a page is fetched and parses into item elements, none of which
    can be extracted, the iteration falls through to the next one with the
    accumulator unchanged, and the crawl fetches the next page of the range;
    an iteration ends the loop exactly when the fetch succeeded and the
    parse found no item element. *)
Theorem unextractable_page_does_not_stop env self max_pages st page books :
  page_outcome env self page = ParsedNonEmpty books ->
  (forall book, book ∈ books -> exists e, book_details self book = Raises e) ->
  (forall st0, exists st1,
     scrape_page env self page st0 = (Returns Fallthrough, st1) /\
     all_books st1 = all_books st0) /\
  (forall p st0,
     (scrape_page env self p st0).1 = Returns Break <->
     exists response, fetch env self p = inr response /\
                      find_all_product_pod env (response_text response) = []) /\
  exists (K : Z) (result : list Dict) (st' : State) (evs : list Event),
    scrape_books env self max_pages st = (Returns result, st') /\
    trace st' = trace st ++ evs /\
    fetched_urls evs = page_url self <$> range 1 (K + 1) /\
    (1 <= page <= K -> page < max_pages -> page + 1 <= K).
Proof.
  intros Hpage Hnone. split_and!.
  - intros st0. eexists. rewrite scrape_page_spec, Hpage. split; [done|].
    unfold page_books, page_items. rewrite Hpage. simpl.
    by rewrite (records_of_raises self books Hnone), app_nil_r.
  - intros p st0. rewrite scrape_page_spec. unfold page_outcome. simpl.
    destruct (fetch env self p) as [e'|response].
    + split; [done|]. by intros (? & ? & _).
    + destruct (find_all_product_pod env (response_text response)) as [|b l] eqn:Hb.
      * split; [|done]. intros _. by exists response.
      * split; [done|]. intros (r & [= <-] & Hr). congruence.
  - destruct (pages_visited_spec env self max_pages) as (K & HK & Hv & Hbefore & Hstop).
    eexists K, _, _, _. run_crawl Hv. rewrite fetched_urls_pages. split; [done|].
    apply (crawl_goes_on env self max_pages K page Hstop).
    unfold is_empty_page. by rewrite Hpage.
Qed.

Lemma unextractable_page_does_not_stop_witness :
  page_outcome example_env example_scraper 3 = ParsedNonEmpty [book_without_price] /\
  book_details example_scraper book_without_price = Raises AttributeError /\
  exists (K : Z) (result : list Dict) (st' : State) (evs : list Event),
    scrape_books example_env example_scraper 6 initial_state = (Returns result, st') /\
    trace st' = trace initial_state ++ evs /\
    fetched_urls evs = page_url example_scraper <$> range 1 (K + 1) /\
    (1 <= 3 <= K -> 3 < 6 -> 3 + 1 <= K).
Proof.
  split; [reflexivity|]. split; [reflexivity|].
  apply (unextractable_page_does_not_stop example_env example_scraper 6 initial_state
           3 [book_without_price]).
  - reflexivity.
  - intros book Hin. exists AttributeError.
    apply list_elem_of_singleton in Hin. rewrite Hin. reflexivity.
Defined.

(** C4. When one of the five reads of an item element raises, extraction of
    that element returns the empty dictionary after one warning and raises
    nothing; the loop over the elements of the page returns normally and
    leaves the accumulator as the same page without that element would: the
    records of the elements before it followed by those of the elements
    after it; the iteration for the page falls through as usual. *)
Theorem bad_item_is_dropped_alone self bad e :
  (read_title bad = Raises e \/ read_price bad = Raises e \/
   read_availability bad = Raises e \/ read_rating bad = Raises e \/
   read_book_url self bad = Raises e) ->
  (forall st, exists e' st',
     _extract_book_details self bad st = (Returns [], st') /\
     all_books st' = all_books st /\
     trace st' = trace st ++ [EvLog WARNING (CouldNotExtract e')]) /\
  (forall before after st, exists st1 st2,
     for_book self (before ++ bad :: after) st = (Returns tt, st1) /\
     for_book self (before ++ after) st = (Returns tt, st2) /\
     all_books st1 = all_books st2 /\
     all_books st1 = all_books st ++ records_of self before ++ records_of self after) /\
  (forall env page before after st,
     page_outcome env self page = ParsedNonEmpty (before ++ bad :: after) ->
     exists st1,
       scrape_page env self page st = (Returns Fallthrough, st1) /\
       all_books st1 = all_books st ++ records_of self before ++ records_of self after).
Proof.
  intros Hread.
  assert (exists e', book_details self bad = Raises e') as [e' Hbad].
  { apply book_details_raises. by exists e. }
  assert (forall before after,
            records_of self (before ++ bad :: after) =
            records_of self before ++ records_of self after) as Hrec.
  { intros before after. rewrite (records_of_app self before (bad :: after)).
    f_equal. unfold records_of. simpl. unfold record_of at 1. by rewrite Hbad. }
  split_and!.
  - intros st. exists e'. eexists. rewrite extract_book_details_spec, Hbad.
    split; [done|]. simpl. by rewrite app_nil_r.
  - intros before after st. eexists _, _. rewrite !for_book_spec.
    split; [done|]. split; [done|]. simpl.
    by rewrite Hrec, records_of_app.
  - intros env page before after st Hpage. eexists.
    rewrite scrape_page_spec, Hpage. split; [done|].
    unfold page_books, page_items. rewrite Hpage. simpl. by rewrite Hrec.
Qed.

Lemma bad_item_is_dropped_alone_witness :
  read_price book_without_price = Raises AttributeError /\
  exists st1,
    scrape_page example_env example_scraper 1 initial_state = (Returns Fallthrough, st1) /\
    all_books st1 =
      all_books initial_state ++
      records_of example_scraper [book_a] ++ records_of example_scraper [book_b].
Proof.
  split; [reflexivity|].
  destruct (bad_item_is_dropped_alone example_scraper book_without_price AttributeError)
    as (_ & _ & Hpage).
  - right. left. reflexivity.
  - apply (Hpage example_env 1 [book_a] [book_b] initial_state). reflexivity.
Defined.

(** C6. Every record of the result of [scrape_books] has exactly the keys
    [Title], [Price], [Availability], [Rating], [URL], in that order, and
    their values are the five reads of one item element, all of which
    returned a string. *)
Theorem records_are_fully_populated env self max_pages st :
  exists (books : list Dict) (st' : State),
    scrape_books env self max_pages st = (Returns books, st') /\
    Forall (fun d =>
              keys d = ["Title"; "Price"; "Availability"; "Rating"; "URL"] /\
              exists book title price availability rating book_url,
                read_title book = Returns title /\
                read_price book = Returns price /\
                read_availability book = Returns availability /\
                read_rating book = Returns rating /\
                read_book_url self book = Returns book_url /\
                d = [("Title", title); ("Price", price);
                     ("Availability", availability); ("Rating", rating);
                     ("URL", book_url)]) books.
Proof.
  eexists _, _. split; [apply scrape_books_spec|].
  apply Forall_forall. intros d Hd.
  apply list_elem_of_In, in_flat_map in Hd as (page & _ & Hd).
  apply list_elem_of_In in Hd. unfold page_books in Hd.
  apply elem_of_records_of in Hd as (book & _ & Hbook).
  apply book_details_fields in Hbook
    as (title & price & availability & rating & book_url & Ht & Hp & Ha & Hr & Hu & ->).
  split; [done|].
  by exists book, title, price, availability, rating, book_url.
Qed.

(** ** Persistence of an empty result, and the unreachable site *)

Lemma flat_map_nil {A B : Type} (f : A -> list B) (l : list A) :
  (forall x, x ∈ l -> f x = []) -> flat_map f l = [].
Proof.
  induction l as [|x rest IH]; intros H; [done|]. simpl.
  rewrite (H x) by left. apply IH. intros y Hy. apply H. by right.
Qed.

(** C9, as the specification states it, fails: with two pages in range, the
    first unreachable and the second not, the result is not empty. *)
Lemma first_page_unreachable_result_not_empty :
  ~ empty_when_first_page_unreachable flaky_env example_scraper 2.
Proof.
  unfold empty_when_first_page_unreachable. intros H.
  assert ((scrape_books flaky_env example_scraper 2 initial_state).1 = Returns [])
    as Hempty.
  { apply H. right. exists ConnectionError. reflexivity. }
  vm_compute in Hempty. discriminate Hempty.
Qed.

(** C9, amended. If [max_pages = 0], or if the fetch fails for every page of
    [1..max_pages], [scrape_books] returns the empty result and touches no
    file; and [save_to_csv] of the empty result returns after logging the
    warning that there is no data to save, leaving every file as it was. *)
Theorem empty_crawl_saves_nothing env self max_pages st filename :
  (max_pages = 0 \/
   forall p, 1 <= p <= max_pages -> exists e, page_outcome env self p = FetchFailed e) ->
  exists st',
    scrape_books env self max_pages st = (Returns [], st') /\
    files st' = files st /\
    save_to_csv env self [] filename st' =
      (Returns tt,
       {| all_books := all_books st';
          trace := trace st' ++ [EvLog WARNING NoDataToSave];
          files := files st' |}).
Proof.
  intros Hcase.
  assert (flat_map (page_books env self) (pages_visited env self max_pages) = [])
    as Hnone.
  { destruct Hcase as [->|Hfail]; [done|].
    destruct (pages_visited_spec env self max_pages) as (K & HK & Hv & _).
    rewrite Hv. apply flat_map_nil. intros p Hp%elem_of_seqZ.
    destruct (Hfail p) as [e He]; [lia|].
    unfold page_books, page_items. by rewrite He. }
  eexists. rewrite scrape_books_spec, Hnone. split; [done|]. split; [done|].
  reflexivity.
Qed.

Lemma empty_crawl_saves_nothing_witness :
  exists st',
    scrape_books unreachable_env example_scraper 3 initial_state = (Returns [], st') /\
    files st' = files initial_state /\
    save_to_csv unreachable_env example_scraper [] "scraped_books.csv" st' =
      (Returns tt,
       {| all_books := all_books st';
          trace := trace st' ++ [EvLog WARNING NoDataToSave];
          files := files st' |}).
Proof.
  apply (empty_crawl_saves_nothing unreachable_env example_scraper 3 initial_state
           "scraped_books.csv").
  right. intros p Hp. exists ConnectionError. reflexivity.
Defined.

(** ** The rate-limit wait *)


(** The wait is also missing after a failed fetch: the second request of
    this crawl follows the first with no wait in between. *)
Remark failed_fetch_is_not_followed_by_wait :
  let evs := trace (scrape_books flaky_env example_scraper 2 initial_state).2 in
  fetched_urls evs = [page_url example_scraper 1; page_url example_scraper 2] /\
  delay_between_fetches false evs = false.
Proof. vm_compute. done. Qed.



(** * Beyond the claims: persistence, the log, the extractor *)

(** ** The writer *)

Lemma with_files_same st : with_files st (files st) = st.
Proof. by destruct st. Qed.

Lemma fits_spec fieldnames rowdict :
  fits fieldnames rowdict = true <-> keys rowdict ⊆ fieldnames.
Proof.
  unfold fits. rewrite forallb_forall. split.
  - intros H k Hk. apply list_elem_of_In, H in Hk. by apply bool_decide_eq_true in Hk.
  - intros H k Hk. apply bool_decide_eq_true, H. by apply list_elem_of_In.
Qed.


Lemma dict_to_list_spec fieldnames rowdict :
  dict_to_list fieldnames rowdict =
  if fits fieldnames rowdict then Returns (row_of fieldnames rowdict)
  else Raises ValueError.
Proof. done. Qed.

Lemma written_all fieldnames books :
  forallb (fits fieldnames) books = true -> written fieldnames books = books.
Proof.
  induction books as [|b rest IH]; [done|]. simpl.
  intros [Hb Hrest]%andb_true_iff. rewrite Hb. by rewrite IH.
Qed.

Lemma forallb_fits fieldnames books :
  forallb (fits fieldnames) books = true <->
  Forall (fun book => keys book ⊆ fieldnames) books.
Proof.
  rewrite forallb_forall, Forall_forall. split.
  - intros H b Hb. apply fits_spec, H. by apply list_elem_of_In.
  - intros H b Hb. apply fits_spec, H. by apply list_elem_of_In.
Qed.

(** Up to a dictionary that does not fit, everything is written. *)
Lemma written_app_stray fieldnames before bad after :
  forallb (fits fieldnames) before = true ->
  fits fieldnames bad = false ->
  written fieldnames (before ++ bad :: after) = before /\
  forallb (fits fieldnames) (before ++ bad :: after) = false.
Proof.
  intros Hbefore Hbad. induction before as [|b rest IH]; simpl.
  - by rewrite Hbad.
  - simpl in Hbefore. apply andb_true_iff in Hbefore as [Hb Hrest].
    rewrite Hb. destruct (IH Hrest) as [-> ->]. done.
Qed.

Lemma append_row_spec filename row rows st :
  files st !! filename = Some rows ->
  append_row filename row st =
  (Returns tt, with_files st (<[filename := rows ++ [row]]> (files st))).
Proof.
  intros Hrows. unfold append_row, with_files. do 2 f_equal.
  rewrite <- (insert_id (files st) filename rows Hrows) at 1.
  by rewrite alter_insert_eq.
Qed.

(** The loop over the records writes the rows of those that fit, in order,
    and raises at the first that does not. *)
Lemma for_row_spec filename fieldnames books st rows :
  files st !! filename = Some rows ->
  for_row filename fieldnames books st =
  (if forallb (fits fieldnames) books then Returns tt else Raises ValueError,
   with_files st
     (<[filename := rows ++ (row_of fieldnames <$> written fieldnames books)]>
        (files st))).
Proof.
  revert st rows. induction books as [|book rest IH]; intros st rows Hrows.
  - simpl. rewrite app_nil_r, insert_id by done. by rewrite with_files_same.
  - cbn [for_row forallb written].
    unfold mbind at 1, M_bind at 1, writerow.
    unfold mbind at 1, M_bind at 1, lift. rewrite dict_to_list_spec.
    destruct (fits fieldnames book); cbv beta iota.
    + rewrite (append_row_spec _ _ rows) by done.
      rewrite (IH _ (rows ++ [row_of fieldnames book])).
      2:{ apply lookup_insert_eq. }
      unfold with_files. cbn [all_books trace files andb].
      rewrite insert_insert_eq, fmap_cons, <- app_assoc. done.
    + cbn [andb fmap list_fmap].
      rewrite app_nil_r, insert_id by done. by rewrite with_files_same.
Qed.

(** [save_to_csv] on a result that is not empty, in full. *)
Lemma save_to_csv_spec env self first rest filename st :
  save_to_csv env self (first :: rest) filename st =
  if can_open env filename then
    let content :=
      keys first :: (row_of (keys first) <$> written (keys first) (first :: rest)) in
    if forallb (fits (keys first)) (first :: rest)
    then (Returns tt,
          extend (with_files st (<[filename := content]> (files st)))
                 [] [EvLog INFO (DataSavedTo filename)])
    else (Raises ValueError, with_files st (<[filename := content]> (files st)))
  else (Returns tt, extend st [] [EvLog ERROR (ErrorSavingCSV OSError)]).
Proof.
  unfold save_to_csv, try_except.
  unfold mbind at 1, M_bind at 1, open_w.
  destruct (can_open env filename).
  2:{ simpl. unfold logger_error. by rewrite emit_extend. }
  unfold mbind at 1, M_bind at 1, writeheader.
  rewrite (append_row_spec _ _ []) by apply lookup_insert_eq.
  unfold mbind at 1, M_bind at 1.
  rewrite (for_row_spec _ _ _ _ ([] ++ [keys first])).
  2:{ simpl. apply lookup_insert_eq. }
  cbn [files with_files]. rewrite !insert_insert_eq.
  destruct (forallb (fits (keys first)) (first :: rest)).
  - unfold logger_info. rewrite emit_extend. done.
  - done.
Qed.


(** Against its own keys, without repetition, the row of a dictionary is the
    sequence of its values. *)
Lemma row_of_own_keys (d : Dict) : NoDup (keys d) -> row_of (keys d) d = d.*2.
Proof.
  unfold row_of, keys. induction d as [|[k v] rest IH]; intros Hnodup; [done|].
  rewrite !fmap_cons in *. cbn [fst snd] in *.
  apply NoDup_cons in Hnodup as [Hk Hrest].
  f_equal.
  - cbn [dict_get]. by rewrite String.eqb_refl.
  - rewrite <- (IH Hrest). apply Forall_fmap_ext, Forall_forall.
    intros k' Hk'. cbn [dict_get].
    destruct (String.eqb_spec k k') as [->|Hne]; [done|done].
Qed.

Lemma read_row_of (header : list string) (d : Dict) :
  NoDup header -> keys d = header -> read_row header (row_of header d) = d.
Proof.
  intros Hnodup <-. rewrite row_of_own_keys by done. apply zip_fst_snd.
Qed.



(** X3. A record with a key that the first record does not have makes
    [save_to_csv] raise [ValueError], which its [except IOError] does not
    catch: nothing is logged, and the file is left holding the header and
    the rows of the records before that one. *)
Theorem save_to_csv_stray_key_raises env self first before bad after filename st k :
  can_open env filename = true ->
  Forall (fun book => keys book ⊆ keys first) before ->
  k ∈ keys bad ->
  k ∉ keys first ->
  exists st',
    save_to_csv env self (first :: before ++ bad :: after) filename st =
      (Raises ValueError, st') /\
    files st' =
      <[filename := keys first :: (row_of (keys first) <$> first :: before)]> (files st) /\
    trace st' = trace st.
Proof.
  intros Hopen Hbefore Hk Hnk.
  assert (fits (keys first) bad = false) as Hbad.
  { apply not_true_is_false. intros Hfit%fits_spec. by apply Hnk, Hfit. }
  assert (forallb (fits (keys first)) (first :: before) = true) as Hfit.
  { apply forallb_fits. by constructor. }
  destruct (written_app_stray (keys first) (first :: before) bad after Hfit Hbad)
    as [Hwritten Hnot].
  eexists. rewrite save_to_csv_spec, Hopen. cbv zeta.
  change (first :: before ++ bad :: after) with ((first :: before) ++ bad :: after).
  rewrite Hnot, Hwritten. done.
Qed.

Lemma save_to_csv_stray_key_raises_witness :
  exists st',
    save_to_csv example_env example_scraper
      [record_a; record_short; record_stray; record_a] "books.csv" initial_state =
      (Raises ValueError, st') /\
    files st' =
      <["books.csv" := keys record_a ::
                       (row_of (keys record_a) <$> [record_a; record_short])]>
        (files initial_state) /\
    trace st' = trace initial_state.
Proof.
  apply (save_to_csv_stray_key_raises example_env example_scraper
           record_a [record_short] record_stray [record_a] "books.csv"
           initial_state "ISBN").
  - reflexivity.
  - constructor; [|constructor]. apply fits_spec. reflexivity.
  - apply list_elem_of_In. simpl. tauto.
  - intros Hin%list_elem_of_In. simpl in Hin.
    destruct Hin as [H|[H|[H|[H|[H|[]]]]]]; discriminate H.
Defined.




(** X5. When the records of a result all have the keys of the first one, in
    the same order and without repetition, what [save_to_csv] writes reads
    back to the result: pairing each data row with the header row gives the
    records again, in order. *)
Theorem saved_rows_read_back env self first rest filename st :
  can_open env filename = true ->
  NoDup (keys first) ->
  Forall (fun book => keys book = keys first) rest ->
  exists st' header rows,
    save_to_csv env self (first :: rest) filename st = (Returns tt, st') /\
    files st' !! filename = Some (header :: rows) /\
    read_row header <$> rows = first :: rest.
Proof.
  intros Hopen Hnodup Hkeys.
  assert (Forall (fun book => keys book = keys first) (first :: rest)) as Hall
    by by constructor.
  assert (forallb (fits (keys first)) (first :: rest) = true) as Hfit.
  { apply forallb_fits. eapply Forall_impl; [exact Hall|].
    intros book ->. done. }
  eexists _, (keys first), (row_of (keys first) <$> first :: rest).
  rewrite save_to_csv_spec, Hopen. cbv zeta.
  rewrite Hfit, (written_all _ _ Hfit). split; [done|]. split.
  - simpl. apply lookup_insert_eq.
  - rewrite <- list_fmap_compose.
    rewrite <- (list_fmap_id (first :: rest)) at 2.
    apply Forall_fmap_ext. eapply Forall_impl; [exact Hall|].
    intros book Hbook. simpl. by apply read_row_of.
Qed.

Lemma saved_rows_read_back_witness :
  exists st' header rows,
    save_to_csv example_env example_scraper [record_a; record_a] "books.csv"
      initial_state = (Returns tt, st') /\
    files st' !! "books.csv" = Some (header :: rows) /\
    read_row header <$> rows = [record_a; record_a].
Proof.
  apply (saved_rows_read_back example_env example_scraper record_a [record_a]
           "books.csv" initial_state).
  - reflexivity.
  - apply (bool_decide_unpack (NoDup (keys record_a))). vm_compute. exact I.
  - constructor; [reflexivity|constructor].
Defined.

(** ** Records with the five field names *)

Lemma NoDup_record_fields : NoDup record_fields.
Proof. apply (bool_decide_unpack (NoDup record_fields)). vm_compute. exact I. Qed.

(** Saving records that all have the five field names. *)
Lemma save_records_spec env self first rest filename st :
  Forall (fun d => keys d = record_fields) (first :: rest) ->
  save_to_csv env self (first :: rest) filename st =
  if can_open env filename
  then (Returns tt,
        extend (with_files st
                  (<[filename := record_fields :: ((fun d => d.*2) <$> first :: rest)]>
                     (files st)))
               [] [EvLog INFO (DataSavedTo filename)])
  else (Returns tt, extend st [] [EvLog ERROR (ErrorSavingCSV OSError)]).
Proof.
  intros Hall. pose proof Hall as Hfirst. apply Forall_cons in Hfirst as [Hfirst _].
  simpl in Hfirst.
  assert (forallb (fits (keys first)) (first :: rest) = true) as Hfit.
  { apply forallb_fits. eapply Forall_impl; [exact Hall|].
    intros d Hd. simpl in Hd. replace (keys d) with (keys first) by congruence.
    done. }
  rewrite save_to_csv_spec. destruct (can_open env filename); [|done]. cbv zeta.
  rewrite Hfit, (written_all _ _ Hfit), Hfirst. do 5 f_equal.
  apply Forall_fmap_ext. eapply Forall_impl; [exact Hall|].
  intros d Hd. cbv beta in *. rewrite <- Hd. apply row_of_own_keys.
  rewrite Hd. apply NoDup_record_fields.
Qed.

(** ** More on the crawl: edge input, waits and the log *)

(** X8. With [max_pages] zero or negative, [scrape_books] does nothing at
    all: no request, no wait, no log entry; it returns the empty list. *)
Theorem nonpositive_max_pages_does_nothing env self max_pages st :
  max_pages <= 0 ->
  scrape_books env self max_pages st =
  (Returns [], {| all_books := []; trace := trace st; files := files st |}).
Proof.
  intros Hn. rewrite scrape_books_spec. unfold pages_visited, range.
  rewrite seqZ_nil by lia. simpl. by rewrite app_nil_r.
Qed.

Lemma nonpositive_max_pages_does_nothing_witness :
  scrape_books example_env example_scraper (-2) initial_state =
  (Returns [], {| all_books := []; trace := []; files := ∅ |}).
Proof.
  apply (nonpositive_max_pages_does_nothing example_env example_scraper (-2)
           initial_state).
  lia.
Defined.

Section log.
Context (env : Env) (self : WebScraper).

(** The parse of a page counts as not empty only with an item element. *)
Lemma page_outcome_nonempty page books :
  page_outcome env self page = ParsedNonEmpty books -> books <> [].
Proof.
  unfold page_outcome. destruct (fetch env self page) as [e|response]; [done|].
  destruct (find_all_product_pod env (response_text response)); [done|].
  by intros [= <-].
Qed.

Lemma waits_page_events page :
  waits (page_events env self page) =
  if has_items env self page then [1] else [].
Proof.
  unfold page_events, has_items, page_items.
  change (waits (EvGet ?u ?h ?t :: ?l)) with (waits l).
  destruct (page_outcome env self page) as [e| |[|b l]] eqn:Hpage; try done.
  - by apply page_outcome_nonempty in Hpage.
  - by rewrite waits_app, waits_extract_events.
Qed.

Lemma waits_pages pages :
  waits (flat_map (page_events env self) pages) =
  (fun _ => 1) <$> filter (fun page => has_items env self page = true) pages.
Proof.
  induction pages as [|page rest IH]; [done|].
  cbn [flat_map]. rewrite waits_app, waits_page_events, IH, filter_cons.
  destruct (has_items env self page).
  - by rewrite decide_True.
  - by rewrite decide_False.
Qed.

Lemma logged_errors_extract_events books :
  logged_errors (flat_map (extract_events self) books) = [].
Proof.
  induction books as [|b rest IH]; [done|]. cbn [flat_map].
  unfold logged_errors in *. rewrite omap_app, IH. unfold extract_events.
  by destruct (book_details self b).
Qed.

Lemma logged_errors_page_events page :
  logged_errors (page_events env self page) =
  option_list (fetch_error env self page).
Proof.
  unfold page_events, fetch_error.
  change (logged_errors (EvGet ?u ?h ?t :: ?l)) with (logged_errors l).
  destruct (page_outcome env self page); try done.
  unfold logged_errors. rewrite omap_app.
  fold (logged_errors (flat_map (extract_events self) books)).
  by rewrite logged_errors_extract_events.
Qed.

Lemma logged_errors_pages pages :
  logged_errors (flat_map (page_events env self) pages) =
  omap (fetch_error env self) pages.
Proof.
  induction pages as [|page rest IH]; [done|].
  cbn [flat_map]. unfold logged_errors at 1. rewrite omap_app.
  fold (logged_errors (page_events env self page)).
  fold (logged_errors (flat_map (page_events env self) rest)).
  rewrite logged_errors_page_events, IH. simpl.
  by destruct (fetch_error env self page).
Qed.

(** Every item element gives a record or a warning. *)
Lemma records_and_warnings books :
  (length (records_of self books) +
   length (extraction_warnings (flat_map (extract_events self) books)) =
   length books)%nat.
Proof.
  induction books as [|b rest IH]; [done|]. cbn [flat_map].
  unfold extraction_warnings in *. rewrite omap_app, length_app.
  unfold records_of in *. cbn [omap list_omap]. unfold record_of at 1, extract_events at 1.
  destruct (book_details self b); simpl in *; lia.
Qed.

Lemma extraction_warnings_page_events page :
  (length (page_books env self page) +
   length (extraction_warnings (page_events env self page)) =
   length (page_items env self page))%nat.
Proof.
  unfold page_books, page_events, page_items.
  change (extraction_warnings (EvGet ?u ?h ?t :: ?l)) with (extraction_warnings l).
  destruct (page_outcome env self page); try done.
  unfold extraction_warnings. rewrite omap_app, length_app. simpl.
  rewrite Nat.add_0_r. apply records_and_warnings.
Qed.

Lemma extraction_warnings_pages pages :
  (length (flat_map (page_books env self) pages) +
   length (extraction_warnings (flat_map (page_events env self) pages)) =
   length (flat_map (page_items env self) pages))%nat.
Proof.
  induction pages as [|page rest IH]; [done|]. cbn [flat_map].
  unfold extraction_warnings in *. rewrite omap_app, !length_app.
  pose proof (extraction_warnings_page_events page) as Hpage.
  unfold extraction_warnings in Hpage. lia.
Qed.

End log.

(** X9. Every wait of a crawl lasts one second, and there is one for each
    fetched page that had at least one item element, none for a page whose
    fetch failed or that was empty; so a crawl never waits more often than
    it makes requests. *)
Theorem one_wait_per_page_with_items env self max_pages st :
  exists (pages : list Z) (books : list Dict) (st' : State) (evs : list Event),
    scrape_books env self max_pages st = (Returns books, st') /\
    trace st' = trace st ++ evs /\
    fetched_urls evs = page_url self <$> pages /\
    waits evs = (fun _ => 1) <$> filter (fun page => has_items env self page = true) pages /\
    (length (waits evs) <= length (requests_made evs))%nat.
Proof.
  eexists (pages_visited env self max_pages), _, _, _.
  split; [apply scrape_books_spec|]. simpl. split; [done|].
  rewrite fetched_urls_pages, waits_pages, requests_made_pages, !length_fmap.
  split_and!; [done | done | apply length_filter].
Qed.

(** X10. The fetch errors logged by a crawl are exactly those of the fetched
    pages whose fetch failed, in page order, each with the index of its page
    and the exception that was raised. *)
Theorem fetch_errors_are_logged_once env self max_pages st :
  exists (pages : list Z) (books : list Dict) (st' : State) (evs : list Event),
    scrape_books env self max_pages st = (Returns books, st') /\
    trace st' = trace st ++ evs /\
    fetched_urls evs = page_url self <$> pages /\
    logged_errors evs = omap (fetch_error env self) pages.
Proof.
  eexists (pages_visited env self max_pages), _, _, _.
  split; [apply scrape_books_spec|]. simpl. split; [done|].
  by rewrite fetched_urls_pages, logged_errors_pages.
Qed.

(** X11. No item element is dropped silently: the records returned and the
    extraction warnings logged together are as many as the item elements of
    the pages fetched. *)
Theorem every_item_gives_a_record_or_a_warning env self max_pages st :
  exists (pages : list Z) (books : list Dict) (st' : State) (evs : list Event),
    scrape_books env self max_pages st = (Returns books, st') /\
    trace st' = trace st ++ evs /\
    fetched_urls evs = page_url self <$> pages /\
    (length books + length (extraction_warnings evs) =
     length (flat_map (page_items env self) pages))%nat.
Proof.
  eexists (pages_visited env self max_pages), _, _, _.
  split; [apply scrape_books_spec|]. simpl. split; [done|].
  split; [apply fetched_urls_pages|]. apply extraction_warnings_pages.
Qed.

Lemma no_books_warnings_page_events env self page :
  no_books_warnings (page_events env self page) =
  if is_empty_page env self page then [page] else [].
Proof.
  unfold page_events, is_empty_page.
  change (no_books_warnings (EvGet ?u ?h ?t :: ?l)) with (no_books_warnings l).
  destruct (page_outcome env self page); try done.
  unfold no_books_warnings. rewrite omap_app. simpl. rewrite app_nil_r.
  induction books as [|b rest IH]; [done|]. cbn [flat_map].
  rewrite omap_app, IH, app_nil_r. unfold extract_events.
  by destruct (book_details self b).
Qed.

Lemma no_books_warnings_none env self pages :
  Forall (fun page => is_empty_page env self page = false) pages ->
  no_books_warnings (flat_map (page_events env self) pages) = [].
Proof.
  induction 1 as [|page rest Hpage _ IH]; [done|]. cbn [flat_map].
  unfold no_books_warnings in *. rewrite omap_app, IH, app_nil_r.
  fold (no_books_warnings (page_events env self page)).
  by rewrite no_books_warnings_page_events, Hpage.
Qed.

(** Of the pages reached, only the last can be empty. *)
Lemma visited_empty_last env self pages :
  Forall (fun page => is_empty_page env self page = false) (visited env self pages) \/
  exists front K,
    visited env self pages = front ++ [K] /\
    is_empty_page env self K = true /\
    Forall (fun page => is_empty_page env self page = false) front.
Proof.
  induction pages as [|page rest IH]; simpl; [by left|].
  destruct (is_empty_page env self page) eqn:Hpage.
  - right. by exists [], page.
  - destruct IH as [IH|(front & K & -> & HK & Hfront)].
    + left. by constructor.
    + right. exists (page :: front), K. split; [done|]. split; [done|].
      by constructor.
Qed.

(** X12. The warning that a page has no books is logged at most once in a
    crawl. When it is logged, it names the last page fetched, that page is
    an empty page, and the warning is the last effect of the crawl; when it
    is not, none of the pages fetched was empty. *)
Theorem empty_page_warning_ends_the_crawl env self max_pages st :
  exists (pages : list Z) (books : list Dict) (st' : State) (evs : list Event),
    scrape_books env self max_pages st = (Returns books, st') /\
    trace st' = trace st ++ evs /\
    fetched_urls evs = page_url self <$> pages /\
    match no_books_warnings evs with
    | [] => Forall (fun page => is_empty_page env self page = false) pages
    | [K] =>
        last pages = Some K /\
        is_empty_page env self K = true /\
        last evs = Some (EvLog WARNING (NoBooksFound K))
    | _ => False
    end.
Proof.
  eexists (pages_visited env self max_pages), _, _, _.
  split; [apply scrape_books_spec|]. simpl. split; [done|].
  split; [apply fetched_urls_pages|]. unfold pages_visited.
  destruct (visited_empty_last env self (range 1 (max_pages + 1)))
    as [Hnone|(front & K & -> & HK & Hfront)].
  - by rewrite no_books_warnings_none.
  - rewrite flat_map_app. unfold no_books_warnings. rewrite omap_app.
    fold (no_books_warnings (flat_map (page_events env self) front)).
    rewrite (no_books_warnings_none _ _ _ Hfront).
    fold (no_books_warnings (flat_map (page_events env self) [K])).
    cbn [flat_map]. rewrite app_nil_r, no_books_warnings_page_events, HK.
    simpl. split; [apply last_snoc|]. split; [done|].
    unfold page_events, is_empty_page in *.
    destruct (page_outcome env self K); try discriminate HK.
    change (last (?l ++ [?a; ?b])) with (last (l ++ ([a] ++ [b]))).
    rewrite app_assoc. apply last_snoc.
Qed.

(** ** The extractor in detail *)

Lemma string_app_cons c (s t : string) : String c s +:+ t = String c (s +:+ t).
Proof. done. Qed.

Lemma string_app_assoc (s1 s2 s3 : string) :
  (s1 +:+ s2) +:+ s3 = s1 +:+ (s2 +:+ s3).
Proof.
  induction s1 as [|c s1 IH]; [done|]. by rewrite !string_app_cons, IH.
Qed.

Lemma string_app_nil_r (s : string) : s +:+ "" = s.
Proof. induction s as [|c s IH]; [done|]. by rewrite string_app_cons, IH. Qed.

Lemma rev_app_app (s1 s2 t : string) :
  String.rev_app s1 s2 +:+ t = String.rev_app s1 (s2 +:+ t).
Proof. revert s2. induction s1 as [|c s1 IH]; intros s2; [done|]. apply IH. Qed.

Lemma string_rev_cons c (s : string) :
  String.rev (String c s) = String.rev s +:+ String c "".
Proof. unfold String.rev. simpl. by rewrite rev_app_app. Qed.

Lemma string_rev_rev_app (s1 s2 : string) :
  String.rev (String.rev_app s1 s2) = String.rev_app s2 s1.
Proof. revert s2. induction s1 as [|c s1 IH]; intros s2; [done|]. apply IH. Qed.

Lemma string_rev_involutive (s : string) : String.rev (String.rev s) = s.
Proof. unfold String.rev at 2. by rewrite string_rev_rev_app. Qed.

Lemma string_rev_app (s1 s2 : string) :
  String.rev (s1 +:+ s2) = String.rev s2 +:+ String.rev s1.
Proof.
  induction s1 as [|c s1 IH].
  - by rewrite string_app_nil_r.
  - by rewrite string_app_cons, !string_rev_cons, IH, string_app_assoc.
Qed.

Lemma all_space_app (s1 s2 : string) :
  all_space (s1 +:+ s2) = all_space s1 && all_space s2.
Proof.
  induction s1 as [|c s1 IH]; [done|].
  rewrite string_app_cons. cbn [all_space]. by rewrite IH, andb_assoc.
Qed.

Lemma all_space_rev (s : string) : all_space (String.rev s) = all_space s.
Proof.
  induction s as [|c s IH]; [done|].
  rewrite string_rev_cons, all_space_app, IH. simpl.
  rewrite andb_true_r. apply andb_comm.
Qed.

(** [lstrip] removes a prefix of whitespace, and all of it. *)
Lemma lstrip_split (s : string) :
  exists pre, s = pre +:+ lstrip s /\ all_space pre = true.
Proof.
  induction s as [|c s (pre & IH & Hpre)]; [by exists ""|]. simpl.
  destruct (py_isspace c) eqn:Hc.
  - exists (String c pre). split; [by rewrite string_app_cons, <- IH|].
    simpl. by rewrite Hc.
  - by exists "".
Qed.

Lemma lstrip_no_leading_space (s : string) : starts_with_space (lstrip s) = false.
Proof.
  induction s as [|c s IH]; [done|]. simpl.
  destruct (py_isspace c) eqn:Hc; [done|]. simpl. done.
Qed.

(** [strip] removes whitespace at both ends and only there, and leaves none
    at either end. *)
Lemma strip_spec (s : string) :
  exists pre post,
    s = pre +:+ strip s +:+ post /\
    all_space pre = true /\ all_space post = true /\
    starts_with_space (strip s) = false /\
    ends_with_space (strip s) = false.
Proof.
  destruct (lstrip_split s) as (pre & Hs & Hpre).
  destruct (lstrip_split (String.rev (lstrip s))) as (w & Hw & Hwspace).
  assert (lstrip s = strip s +:+ String.rev w) as Hu.
  { rewrite <- (string_rev_involutive (lstrip s)). rewrite Hw at 1.
    by rewrite string_rev_app. }
  exists pre, (String.rev w). split_and!.
  - by rewrite <- Hu.
  - done.
  - by rewrite all_space_rev.
  - pose proof (lstrip_no_leading_space s) as Hhead. rewrite Hu in Hhead.
    by destruct (strip s).
  - unfold ends_with_space, strip. rewrite string_rev_involutive.
    apply lstrip_no_leading_space.
Qed.

(** The body of the extractor returns a record exactly on complete markup. *)
Lemma book_details_complete self book d :
  book_details self book = Returns d <->
  exists h3 a title href price_p availability_p rating_p classes rating,
    child book "h3" = Some h3 /\
    child h3 "a" = Some a /\
    dict_get (attrs a) "title" = Some title /\
    dict_get (attrs a) "href" = Some href /\
    find book "p" "price_color" = Some price_p /\
    find book "p" "instock availability" = Some availability_p /\
    find book "p" "star-rating" = Some rating_p /\
    class_attr rating_p = Some classes /\
    classes !! 1%nat = Some rating /\
    d = [("Title", title);
         ("Price", slice_from_1 (text price_p));
         ("Availability", strip (text availability_p));
         ("Rating", rating);
         ("URL", base_url self +:+ "/" +:+ href)].
Proof.
  unfold book_details, read_title, read_price, read_availability, read_rating,
    read_book_url, getattr_child, getattr_text, getitem, getitem_class, list_index.
  split.
  - intros H.
    destruct (child book "h3") as [h3|]; [|discriminate H]. simpl in H.
    destruct (child h3 "a") as [a|] eqn:Ha; [|discriminate H].
    destruct (dict_get (attrs a) "title") as [title|] eqn:Htitle; [|discriminate H].
    destruct (find book "p" "price_color") as [price_p|]; [|discriminate H].
    destruct (find book "p" "instock availability") as [availability_p|];
      [|discriminate H].
    destruct (find book "p" "star-rating") as [rating_p|]; [|discriminate H].
    simpl in H.
    destruct (class_attr rating_p) as [classes|] eqn:Hclasses; [|discriminate H].
    simpl in H.
    destruct (classes !! 1%nat) as [rating|] eqn:Hrating; [|discriminate H].
    simpl in H.
    destruct (dict_get (attrs a) "href") as [href|] eqn:Hhref; [|discriminate H].
    simpl in H. injection H as <-.
    by exists h3, a, title, href, price_p, availability_p, rating_p, classes, rating.
  - intros (h3 & a & title & href & price_p & availability_p & rating_p & classes
            & rating & -> & Ha & Htitle & Hhref & -> & -> & -> & Hclasses & Hrating & ->).
    simpl. rewrite Ha, Htitle. simpl. rewrite Hclasses. simpl.
    rewrite Hrating. simpl. rewrite Hhref. done.
Qed.

(** X14. The [Availability] of an extracted record is the text of the
    availability paragraph with the whitespace at its two ends removed and
    nothing else: the text is whitespace, then the value, then whitespace,
    and the value neither begins nor ends with a whitespace character. *)
Theorem availability_is_trimmed self book st d st' :
  _extract_book_details self book st = (Returns d, st') ->
  dict_truthy d = true ->
  exists p pre availability post,
    find book "p" "instock availability" = Some p /\
    text p = pre +:+ availability +:+ post /\
    all_space pre = true /\
    all_space post = true /\
    starts_with_space availability = false /\
    ends_with_space availability = false /\
    dict_get d "Availability" = Some availability.
Proof.
  intros Hrun Htruthy. rewrite extract_book_details_spec in Hrun.
  destruct (book_details self book) as [d0|e0] eqn:Hd.
  2:{ injection Hrun as <- _. discriminate Htruthy. }
  injection Hrun as <- _.
  apply book_details_complete in Hd
    as (h3 & a & title & href & price_p & p & rating_p & classes & rating
        & _ & _ & _ & _ & _ & Hp & _ & _ & _ & ->).
  destruct (strip_spec (text p)) as (pre & post & Htext & Hpre & Hpost & Hs & He).
  by exists p, pre, (strip (text p)), post.
Qed.

Lemma availability_is_trimmed_witness :
  exists p pre availability post,
    find book_a "p" "instock availability" = Some p /\
    text p = pre +:+ availability +:+ post /\
    all_space pre = true /\
    all_space post = true /\
    starts_with_space availability = false /\
    ends_with_space availability = false /\
    dict_get record_a "Availability" = Some availability.
Proof.
  apply (availability_is_trimmed example_scraper book_a initial_state record_a
           initial_state); reflexivity.
Defined.

(** * The program against libraries that may raise anything *)

Section raw.
Context (renv : Raw.Env) (self : WebScraper).

Lemma raw_get_spec url hdrs timeout st :
  Raw.get renv url hdrs timeout st =
  match Raw.requests_get renv url hdrs timeout with
  | inl x => (Raises x, extend st [] [EvGet url hdrs timeout])
  | inr response => (Returns response, extend st [] [EvGet url hdrs timeout])
  end.
Proof.
  unfold Raw.get, mbind, M_bind. rewrite emit_extend.
  by destruct (Raw.requests_get renv url hdrs timeout).
Qed.

(** The iteration for a page, by what becomes of it. *)
Lemma raw_scrape_page_spec page st :
  Raw.scrape_page renv self page st =
  match raw_page_outcome renv self page with
  | Propagates x =>
      (Raises x, extend st [] [EvGet (page_url self page) (headers self) 10])
  | Handled o =>
      (Returns (outcome_flow o),
       extend st (outcome_books self o)
         (EvGet (page_url self page) (headers self) 10 :: outcome_events self page o))
  end.
Proof.
  unfold Raw.scrape_page, try_except, raw_page_outcome, raw_parse, raw_fetch.
  unfold mbind at 1, M_bind at 1. rewrite raw_get_spec.
  destruct (Raw.requests_get renv (page_url self page) (headers self) 10)
    as [x|response].
  { destruct x; simpl; try done.
    unfold mbind, M_bind, logger_error. by rewrite emit_extend, extend_extend. }
  unfold mbind at 1, M_bind at 1, raise_for_status.
  destruct (ok response); simpl.
  2:{ unfold mbind, M_bind, logger_error. by rewrite emit_extend, extend_extend. }
  unfold mbind at 1, M_bind at 1, Raw.find_all.
  destruct (Raw.find_all_product_pod renv (response_text response)) as [x|books].
  { destruct x; simpl; try done.
    unfold mbind, M_bind, logger_error. by rewrite emit_extend, extend_extend. }
  destruct books as [|book rest].
  { simpl. unfold extend. simpl. by rewrite <- app_assoc. }
  unfold mret at 1, M_ret at 1. cbv beta iota.
  unfold mbind at 1, M_bind at 1. rewrite for_book_spec.
  unfold mbind, M_bind, time_sleep. rewrite emit_extend, !extend_extend.
  simpl. by rewrite !app_nil_r.
Qed.

(** Only an exception that is no [RequestException] leaves an iteration. *)
Lemma propagates_no_request_exception page x :
  raw_page_outcome renv self page = Propagates x ->
  isinstance_RequestException x = false /\ raw_parse renv self page = inl x.
Proof.
  unfold raw_page_outcome.
  destruct (raw_parse renv self page) as [[]|[|]]; intros [= <-] || done; done.
Qed.

Lemma raw_for_page_spec pages st :
  Raw.for_page renv self pages st =
  (raw_result renv self pages,
   extend st
     (flat_map (raw_page_books renv self) (visited_until (raw_stops renv self) pages))
     (flat_map (raw_page_events renv self) (visited_until (raw_stops renv self) pages))).
Proof.
  revert st. induction pages as [|page rest IH]; intros st; simpl.
  - by rewrite extend_nil.
  - unfold mbind, M_bind. rewrite raw_scrape_page_spec. unfold raw_stops at 1 3.
    destruct (raw_page_outcome renv self page) as [x|[e| |books]] eqn:Hpage;
      cbn [flat_map]; unfold raw_page_books at 1, raw_page_events at 1;
      rewrite Hpage; cbn [outcome_flow outcome_books outcome_events];
      rewrite ?app_nil_r, ?IH, ?extend_extend; done.
Qed.

Lemma raw_scrape_books_spec max_pages st :
  Raw.scrape_books renv self max_pages st =
  (match raw_result renv self (range 1 (max_pages + 1)) with
   | Returns _ =>
       Returns (flat_map (raw_page_books renv self) (raw_pages_visited renv self max_pages))
   | Raises x => Raises x
   end,
   {| all_books := flat_map (raw_page_books renv self) (raw_pages_visited renv self max_pages);
      trace := trace st ++
               flat_map (raw_page_events renv self) (raw_pages_visited renv self max_pages);
      files := files st |}).
Proof.
  unfold Raw.scrape_books, raw_pages_visited, mbind, M_bind, set_all_books, get_all_books.
  rewrite raw_for_page_spec.
  by destruct (raw_result renv self (range 1 (max_pages + 1))).
Qed.

Lemma raw_result_raises pages x :
  raw_result renv self pages = Raises x ->
  exists page, page ∈ pages /\ raw_page_outcome renv self page = Propagates x.
Proof.
  induction pages as [|page rest IH]; simpl; [done|].
  destruct (raw_page_outcome renv self page) as [y|[e| |books]] eqn:Hpage.
  - intros [= <-]. exists page. split; [left|done].
  - intros (q & Hq & Hx)%IH. exists q. split; [by right|done].
  - done.
  - intros (q & Hq & Hx)%IH. exists q. split; [by right|done].
Qed.

Lemma requests_made_raw_page_events page :
  requests_made (raw_page_events renv self page) =
  [(page_url self page, headers self, 10)].
Proof.
  unfold raw_page_events.
  change (requests_made (EvGet ?u ?h ?t :: ?l)) with ((u, h, t) :: requests_made l).
  f_equal. destruct (raw_page_outcome renv self page) as [x|[e| |books]]; try done.
  simpl. by rewrite requests_made_app, requests_made_extract_events.
Qed.

Lemma fetched_urls_raw_pages pages :
  fetched_urls (flat_map (raw_page_events renv self) pages) = page_url self <$> pages.
Proof.
  unfold fetched_urls. induction pages as [|page rest IH]; [done|].
  cbn [flat_map]. rewrite requests_made_app, requests_made_raw_page_events.
  rewrite !fmap_app, IH. done.
Qed.

End raw.

(** Over consecutive page indices, the pages up to the first that stops are
    an initial segment. *)
Lemma visited_until_seqZ (stop : Z -> bool) (m n : Z) :
  0 <= n ->
  exists K : Z,
    0 <= K <= n /\
    visited_until stop (seqZ m n) = seqZ m K /\
    (forall p, m <= p < m + K - 1 -> stop p = false) /\
    (K < n -> 1 <= K /\ stop (m + K - 1) = true).
Proof.
  intros Hn. rewrite <- (Z2Nat.id n Hn). clear Hn.
  generalize (Z.to_nat n) as k. clear n. intros k. revert m.
  induction k as [|k IH]; intros m.
  - exists 0. split_and!; [lia | lia | done | intros; lia | intros; lia].
  - rewrite seqZ_cons by lia. simpl visited_until.
    replace (Z.pred (Z.of_nat (S k))) with (Z.of_nat k) by lia.
    destruct (stop m) eqn:Hm.
    + exists 1. split_and!; [lia | lia | | intros; lia | ].
      * rewrite seqZ_cons by lia. f_equal.
      * intros _. split; [lia|]. by replace (m + 1 - 1) with m by lia.
    + destruct (IH (Z.succ m)) as (K & HK & Hv & Hbefore & Hstop).
      exists (K + 1). split_and!; [lia | lia | | | ].
      * rewrite Hv. rewrite (seqZ_cons m (K + 1)) by lia.
        by replace (Z.pred (K + 1)) with K by lia.
      * intros p Hp. destruct (decide (p = m)) as [->|Hne]; [done|].
        apply Hbefore. lia.
      * intros HK1. replace (m + (K + 1) - 1) with (Z.succ m + K - 1) by lia.
        destruct Hstop as [? ?]; [lia|]. split; [lia|done].
Qed.

Lemma raw_pages_visited_spec renv self max_pages :
  exists K : Z,
    0 <= K <= Z.max 0 max_pages /\
    raw_pages_visited renv self max_pages = range 1 (K + 1) /\
    (forall p, 1 <= p < K -> raw_stops renv self p = false) /\
    (K < max_pages -> 1 <= K /\ raw_stops renv self K = true).
Proof.
  unfold raw_pages_visited, range.
  replace (max_pages + 1 - 1) with max_pages by lia.
  destruct (decide (0 <= max_pages)) as [Hn|Hn].
  - destruct (visited_until_seqZ (raw_stops renv self) 1 max_pages Hn)
      as (K & HK & Hv & Hbefore & Hstop).
    exists K. replace (K + 1 - 1) with K by lia.
    split_and!; [lia | lia | done | | ].
    + intros p Hp. apply Hbefore. lia.
    + intros HKn. destruct (Hstop HKn) as [HK1 He].
      split; [done|]. by replace (1 + K - 1) with K in He by lia.
  - exists 0. rewrite seqZ_nil by lia.
    split_and!; [lia | lia | done | intros; lia | intros; lia].
Qed.

(** The records of a crawl all have the five field names, in order. *)
Lemma raw_page_books_keys renv self pages :
  Forall (fun d => keys d = record_fields) (flat_map (raw_page_books renv self) pages).
Proof.
  apply Forall_forall. intros d Hd.
  apply list_elem_of_In, in_flat_map in Hd as (page & _ & Hd).
  unfold raw_page_books in Hd.
  destruct (raw_page_outcome renv self page) as [x|[e| |books]]; simpl in Hd; try done.
  apply list_elem_of_In, elem_of_records_of in Hd as (book & _ & Hbook).
  apply book_details_fields in Hbook as (?&?&?&?&?&_&_&_&_&_&->). done.
Qed.




Lemma raw_save_to_csv_raw_env env self books filename st :
  Raw.save_to_csv (raw_env env) self books filename st =
  save_to_csv env self books filename st.
Proof.
  destruct books as [|first rest]; [done|].
  unfold Raw.save_to_csv, save_to_csv, try_except.
  unfold mbind at 1 5, M_bind at 1 5, Raw.open_w, open_w. simpl.
  by destruct (can_open env filename).
Qed.

(** ** A failed fetch *)

(** C3, as the specification states it, fails: a page answered with status
    304 is fetched with a status that is not 2xx, yet the status check lets
    it pass; its body has no item element, so the crawl stops there instead
    of proceeding to page 2. *)
Lemma non_2xx_answer_is_not_skipped :
  ~ failed_fetch_is_skipped_as_specified not_modified_env example_scraper 2.
Proof.
  unfold failed_fetch_is_skipped_as_specified. intros H.
  assert (fetched_urls
            (trace (Raw.scrape_books not_modified_env example_scraper 2 initial_state).2)
          = ["http://books.toscrape.com"]) as Hurls by reflexivity.
  rewrite Hurls in H. specialize (H 1).
  assert (page_url example_scraper (1 + 1) ∈ ["http://books.toscrape.com"]) as Hin.
  { apply H.
    - lia.
    - cbv [fetch_fails_as_specified not_modified_env Raw.requests_get status_code].
      lia.
    - left. }
  apply list_elem_of_singleton in Hin. discriminate Hin.
Qed.

(** An exception of the request that is no [RequestException] is not
    caught: it ends the crawl and leaves [scrape_books], the records of the
    pages before it staying in the accumulator. *)
Remark other_exception_leaves_the_crawl :
  exists st',
    Raw.scrape_books crashing_env example_scraper 6 initial_state =
      (Raises ValueError, st') /\
    fetched_urls (trace st') = [page_url example_scraper 1; page_url example_scraper 2] /\
    length (all_books st') = 2%nat.
Proof. eexists. split_and!; reflexivity. Qed.

(** C3, amended. When the fetch of a page raises a [RequestException] (the
    request raises one, or the status check raises [HTTPError] because the
    response is not ok), whatever else the libraries may raise: the
    iteration for that page returns normally with the accumulator unchanged
    and lets the loop continue; the records accumulated by the crawl are
    those of the fetched pages without that page; if the page was reached
    and is not the last of the range, the next page is fetched too; and
    what [scrape_books] raises, if anything, is no [RequestException]. *)
Theorem request_exception_skips_page renv self max_pages st page e :
  raw_fetch renv self page = inl (RequestExn e) ->
  (forall st0, exists st1,
     Raw.scrape_page renv self page st0 = (Returns Continue, st1) /\
     all_books st1 = all_books st0) /\
  exists (K : Z) (outcome : Outcome (list Dict)) (st' : State) (evs : list Event),
    Raw.scrape_books renv self max_pages st = (outcome, st') /\
    trace st' = trace st ++ evs /\
    fetched_urls evs = page_url self <$> range 1 (K + 1) /\
    all_books st' = flat_map (raw_page_books renv self)
                      (filter (fun q => q <> page) (range 1 (K + 1))) /\
    (1 <= page <= K -> page < max_pages -> page + 1 <= K) /\
    (outcome = Returns (all_books st') \/
     exists x, outcome = Raises x /\ isinstance_RequestException x = false).
Proof.
  intros Hfail.
  assert (raw_page_outcome renv self page = Handled (FetchFailed e)) as Hpage.
  { unfold raw_page_outcome, raw_parse. by rewrite Hfail. }
  assert (raw_page_books renv self page = []) as Hnone.
  { unfold raw_page_books. by rewrite Hpage. }
  split.
  - intros st0. eexists. rewrite raw_scrape_page_spec, Hpage. split; [done|].
    simpl. by rewrite app_nil_r.
  - destruct (raw_pages_visited_spec renv self max_pages)
      as (K & HK & Hv & Hbefore & Hstop).
    eexists K, _, _, _. split; [apply raw_scrape_books_spec|]. simpl.
    split; [done|]. rewrite Hv, fetched_urls_raw_pages.
    split_and!; [done | by apply flat_map_skip | | ].
    + intros Hrange Hmax. destruct (decide (page = K)) as [->|Hne]; [|lia].
      destruct Hstop as [_ HK']; [lia|].
      unfold raw_stops in HK'. by rewrite Hpage in HK'.
    + destruct (raw_result renv self (range 1 (max_pages + 1))) as [[]|x] eqn:Hres.
      * by left.
      * right. exists x. split; [done|].
        apply raw_result_raises in Hres as (q & _ & Hq).
        by apply propagates_no_request_exception in Hq as [Hx _].
Qed.

Lemma request_exception_skips_page_witness :
  raw_fetch (raw_env example_env) example_scraper 2 = inl (RequestExn Timeout) /\
  exists (K : Z) (outcome : Outcome (list Dict)) (st' : State) (evs : list Event),
    Raw.scrape_books (raw_env example_env) example_scraper 6 initial_state =
      (outcome, st') /\
    trace st' = trace initial_state ++ evs /\
    fetched_urls evs = page_url example_scraper <$> range 1 (K + 1) /\
    all_books st' = flat_map (raw_page_books (raw_env example_env) example_scraper)
                      (filter (fun q => q <> 2) (range 1 (K + 1))) /\
    (1 <= 2 <= K -> 2 < 6 -> 2 + 1 <= K) /\
    (outcome = Returns (all_books st') \/
     exists x, outcome = Raises x /\ isinstance_RequestException x = false).
Proof.
  split; [reflexivity|].
  apply (request_exception_skips_page (raw_env example_env) example_scraper 6
           initial_state 2 Timeout).
  reflexivity.
Defined.

(** ** The price *)

(** C8. The code misses what the claim and its own comment say. The price
    text as the comment of line 81 names it, the pound sign after the
    character 194, loses that character only: the stored price still begins
    with the currency symbol. A price text without a currency symbol loses
    its first digit. *)
Theorem price_slice_misses_the_currency_symbol :
  (exists d,
     _extract_book_details example_scraper book_two_character_symbol initial_state =
       (Returns d, initial_state) /\
     dict_get d "Price" = Some (pound +:+ "51.77") /\
     has_currency_symbol (pound +:+ "51.77") = true) /\
  (exists d,
     _extract_book_details example_scraper book_plain_price initial_state =
       (Returns d, initial_state) /\
     dict_get d "Price" = Some "1.77").
Proof. split; eexists; split_and!; reflexivity. Qed.

(** ** Saving, whatever [open] raises *)

Lemma fetched_urls_log evs lvl msg :
  fetched_urls (evs ++ [EvLog lvl msg]) = fetched_urls evs.
Proof.
  unfold fetched_urls. rewrite requests_made_app. simpl. by rewrite app_nil_r.
Qed.

Lemma raw_save_to_csv_raises renv self first rest filename st x :
  Raw.open_raises renv filename = Some x ->
  Raw.save_to_csv renv self (first :: rest) filename st =
  if isinstance_IOError x
  then (Returns tt, extend st [] [EvLog ERROR (ErrorSavingCSV x)])
  else (Raises x, st).
Proof.
  intros Hopen. unfold Raw.save_to_csv, try_except.
  unfold mbind at 1, M_bind at 1, Raw.open_w. rewrite Hopen.
  destruct (isinstance_IOError x); [|done].
  unfold logger_error. by rewrite emit_extend.
Qed.

(** Once the file is open, saving goes as within the contracts. *)
Lemma raw_save_to_csv_opens renv env self books filename st :
  Raw.open_raises renv filename = None ->
  can_open env filename = true ->
  Raw.save_to_csv renv self books filename st = save_to_csv env self books filename st.
Proof.
  intros Hraw Hopen. destruct books as [|first rest]; [done|].
  unfold Raw.save_to_csv, save_to_csv, try_except.
  unfold mbind at 1 5, M_bind at 1 5, Raw.open_w, open_w.
  by rewrite Hraw, Hopen.
Qed.





(** X7. Whatever the libraries do and however it ends, [main] makes at most
    three requests: to the base URL, then to pages 2 and 3 of the
    catalogue, in that order; and it leaves every file other than
    [scraped_books.csv] as it was. *)
Theorem main_requests_and_files renv st :
  exists (outcome : Outcome unit) (st' : State) (evs : list Event),
    Raw.main renv st = (outcome, st') /\
    trace st' = trace st ++ evs /\
    fetched_urls evs `prefix_of`
      ["http://books.toscrape.com";
       "http://books.toscrape.com/catalogue/page-2.html";
       "http://books.toscrape.com/catalogue/page-3.html"] /\
    delete "scraped_books.csv" (files st') = delete "scraped_books.csv" (files st).
Proof.
  unfold Raw.main. set (self := __init__ "http://books.toscrape.com").
  cbv zeta. unfold mbind, M_bind. rewrite raw_scrape_books_spec.
  pose proof (raw_page_books_keys renv self (raw_pages_visited renv self 3)) as Hkeys.
  destruct (raw_pages_visited_spec renv self 3) as (K & HK & Hv & _).
  assert (fetched_urls
            (flat_map (raw_page_events renv self) (raw_pages_visited renv self 3))
            `prefix_of`
          ["http://books.toscrape.com";
           "http://books.toscrape.com/catalogue/page-2.html";
           "http://books.toscrape.com/catalogue/page-3.html"]) as Hprefix.
  { rewrite fetched_urls_raw_pages, Hv. unfold range.
    replace (K + 1 - 1) with K by lia.
    assert (K = 0 \/ K = 1 \/ K = 2 \/ K = 3) as HKcases by lia.
    destruct HKcases as [-> | [-> | [-> | ->]]].
    - by eexists.
    - by eexists [_; _].
    - by eexists [_].
    - by exists []. }
  destruct (raw_result renv self (range 1 (3 + 1))) as [[]|x].
  2:{ eexists _, _, _. split; [reflexivity|]. simpl. split_and!; done. }
  destruct (flat_map (raw_page_books renv self) (raw_pages_visited renv self 3))
    as [|first rest].
  { eexists _, _, _. split; [reflexivity|]. simpl.
    split; [by rewrite <- app_assoc|]. split; [|done]. by rewrite fetched_urls_log. }
  destruct (Raw.open_raises renv "scraped_books.csv") as [y|] eqn:Hopen.
  - rewrite (raw_save_to_csv_raises _ _ _ _ _ _ _ Hopen).
    destruct (isinstance_IOError y).
    + eexists _, _, _. split; [reflexivity|]. simpl.
      split; [by rewrite <- app_assoc|]. split; [|done].
      by rewrite fetched_urls_log.
    + eexists _, _, _. split; [reflexivity|]. simpl. split_and!; done.
  - rewrite (raw_save_to_csv_opens renv empty_env) by done.
    rewrite (save_records_spec _ _ _ _ _ _ Hkeys). simpl.
    eexists _, _, _. split; [reflexivity|]. simpl.
    split; [by rewrite <- app_assoc|].
    split; [by rewrite fetched_urls_log|]. apply delete_insert_eq.
Qed.

(** ** The extractor, case by case *)

(** X13. [_extract_book_details] never raises and has two cases. When the
    markup of the item element is complete (an [h3] with an [a] that has
    the attributes [title] and [href], a price paragraph, an availability
    paragraph, and a rating paragraph whose class list has a second entry)
    it returns the record, logging nothing: the title attribute, the price
    text from its second character on, the trimmed availability text, the
    second class of the rating paragraph, and the base URL joined to the
    [href] by a slash. In every other case it returns the empty dictionary
    after logging one warning. *)
Theorem extraction_returns_record_or_empty_dict self book st :
  (exists d,
     complete_markup self book d /\
     dict_truthy d = true /\
     _extract_book_details self book st = (Returns d, st)) \/
  ((forall d, ~ complete_markup self book d) /\
   exists e,
     _extract_book_details self book st =
       (Returns [], extend st [] [EvLog WARNING (CouldNotExtract e)])).
Proof.
  rewrite extract_book_details_spec.
  destruct (book_details self book) as [d|e] eqn:Hd.
  - left. exists d. split; [by apply book_details_complete|].
    split; [by apply (book_details_truthy self book)|done].
  - right. split; [|by exists e].
    intros d Hcomplete%book_details_complete. congruence.
Qed.

Lemma extraction_returns_record_or_empty_dict_witness :
  (exists d,
     complete_markup example_scraper book_a d /\
     _extract_book_details example_scraper book_a initial_state =
       (Returns d, initial_state)) /\
  (exists e,
     _extract_book_details example_scraper book_without_rating initial_state =
       (Returns [], extend initial_state [] [EvLog WARNING (CouldNotExtract e)])).
Proof.
  split.
  - destruct (extraction_returns_record_or_empty_dict example_scraper book_a
                initial_state) as [(d & Hd & _ & Hrun)|[_ (e & Hrun)]].
    + by exists d.
    + discriminate Hrun.
  - destruct (extraction_returns_record_or_empty_dict example_scraper
                book_without_rating initial_state) as [(d & _ & Hd & Hrun)|[_ He]].
    + injection Hrun as <-. discriminate Hd.
    + exact He.
Defined.
